(** * statusci: the Jenkins job widget and its REST client

    A shallow embedding of [src/web/JenkinsJobComponent.tsx] (the polling
    React component) and of the [RestClient] class, with the properties the
    specification states about them.

    Numbers that the program only ever uses as integers (timestamps in
    milliseconds, HTTP status codes, timer handles) are [Z] or [nat].  The
    age of a build, a ratio of integers that is rounded at once, is computed
    over the rationals [Q]; the delay of the next refresh, which is computed
    from the number [Math.random] returns, is computed as JavaScript does, in
    binary64: each operation gives the double nearest to the exact result.
    A JavaScript object with optional keys is a record of [option] fields:
    [None] is an absent key. *)

From Stdlib Require Import ZArith QArith Qround Qpower Bool List Lia Lqa.
From Stdlib Require Import Ascii String DecimalString.
Import ListNotations.

Local Open Scope string_scope.
Local Open Scope Z_scope.

(** ** JavaScript values, as far as the program looks at them *)

Module JS.

(** [!!s] for a string: every string but the empty one is truthy. *)
Definition truthy_string (s : string) : bool := negb (String.eqb s "").

(** [!!n] for an (integer) number: every number but zero is truthy. *)
Definition truthy_number (n : Z) : bool := negb (Z.eqb n 0).

(** [!!x] for a possibly undefined property. *)
Definition truthy {A : Type} (t : A -> bool) (x : option A) : bool :=
  match x with
  | Some a => t a
  | None => false
  end.

(** An array, even an empty one, is an object and therefore truthy. *)
Definition truthy_array {A : Type} (_ : list A) : bool := true.

(** String conversion of a possibly undefined string, as done by [+]
    and by template literals. *)
Definition str (x : option string) : string :=
  match x with
  | Some s => s
  | None => "undefined"
  end.

(** String conversion of an integer number. *)
Definition num_to_string (n : Z) : string :=
  NilZero.string_of_int (Z.to_int n).

(** [Math.round]: the nearest integer, a tie going up. *)
Definition Math_round (x : Q) : Z := Qfloor (x + (1 # 2))%Q.

End JS.

(** ** Binary64 arithmetic

    The finite doubles are the rationals [m * 2 ^ e] with [m] an integer of
    at most 53 bits and [e] at least -1074.  An operation of JavaScript on
    numbers gives the double nearest to the exact result, a tie going to the
    even [m].  Results of magnitude [2 ^ 1024] and more, which JavaScript
    turns into infinities, do not occur in what the program computes and
    are not modelled. *)

Module Binary64.

Definition pow2 (e : Z) : Q := (2 ^ e)%Q.

(** The integer nearest to [t], a tie going to the even one. *)
Definition rne (t : Q) : Z :=
  let f := Qfloor t in
  match (t - inject_Z f ?= 1 # 2)%Q with
  | Lt => f
  | Gt => f + 1
  | Eq => if Z.even f then f else f + 1
  end.

(** For a positive [x], the [k] with [2 ^ k <= x < 2 ^ (k + 1)]. *)
Definition ilog2 (x : Q) : Z :=
  let k := Z.log2 (Qnum x) - Z.log2 (Zpos (Qden x)) in
  if Qle_bool (pow2 k) x then k else k - 1.

Definition emin : Z := -1074.

(** The exponent of the last place of the doubles around [x]: 53 bits
    from the leading one, and never below that of the subnormal numbers. *)
Definition expo (x : Q) : Z := Z.max (ilog2 x - 52) emin.

(** The double nearest to a positive [x]. *)
Definition roundPos (x : Q) : Q :=
  (inject_Z (rne (x * pow2 (- expo x))) * pow2 (expo x))%Q.

(** The double nearest to [x]. *)
Definition round (x : Q) : Q :=
  match (x ?= 0)%Q with
  | Eq => 0%Q
  | Gt => roundPos x
  | Lt => (- roundPos (- x))%Q
  end.

(** [x + y] and [x * y] on doubles. *)
Definition add (x y : Q) : Q := round (x + y).
Definition mul (x y : Q) : Q := round (x * y).

End Binary64.

(** ** Data of the Jenkins API, as the component reads it *)

(** A child reference of a folder: the component reads its [name]. *)
Record JenkinsJobRefResponse := { ref_name : string }.

(** A reference to a build, handed unchanged to [readBuild]. *)
Record JenkinsBuildRef := { build_number : Z; build_url : string }.

(** The answer of the job endpoint.  The component reads [displayName],
    [url], [lastBuild], [builds] and [jobs]; [job_result] and
    [job_building] are the two fields the classification is derived from. *)
Record JenkinsJobResponse := {
  job_displayName : option string;
  job_url : string;
  lastBuild : option JenkinsBuildRef;
  builds : option (list JenkinsBuildRef);
  job_jobs : option (list JenkinsJobRefResponse);
  job_result : option string;
  job_building : bool
}.

(** The answer of the build endpoint; the component reads [timestamp]. *)
Record JenkinsBuildResponse := {
  timestamp : Z;
  build_building : bool;
  build_progress : Z
}.

(** The enumeration [JenkinsBuildStatus].  The component names the members
    [SUCCESS], [WARN] and [ERROR]; [OTHER k] stands for any further member. *)
Inductive JenkinsBuildStatus :=
| SUCCESS
| WARN
| ERROR
| OTHER (k : nat).

(** Modelled from the spec: the constants of [Styles], which is not among
    the sources; the four display classes are success, warning, error and
    none. *)
Module Styles.
Definition STATUS_SUCCESS : string := "success".
Definition STATUS_WARN : string := "warning".
Definition STATUS_ERROR : string := "error".
Definition STATUS_NONE : string := "none".
Definition all : list string :=
  [STATUS_SUCCESS; STATUS_WARN; STATUS_ERROR; STATUS_NONE].
End Styles.

(** The functions the component imports from [JenkinsClient], which is not
    among the sources, and the date formatting of the JavaScript runtime.
    They are parameters of the development. *)
Class JenkinsHelpers := {
  isSingleJob : JenkinsJobResponse -> bool;
  isMultiJob : JenkinsJobResponse -> bool;
  isBuilding : JenkinsJobResponse -> bool;
  getProgressPercent : JenkinsBuildResponse -> Z;
  classify : option string -> bool -> JenkinsBuildStatus;
  dateToString : option Z -> string
}.

(** Modelled from the spec: [getBuildStatus] of [JenkinsClient], which is
    not among the sources.  The build classification is derived from the
    upstream result and the building flag; which pair gives which member is
    left to [classify]. *)
Definition getBuildStatus `{JenkinsHelpers} (job : JenkinsJobResponse)
  : JenkinsBuildStatus :=
  classify (job_result job) (job_building job).

(** ** The component: properties and state *)

(** [JobProperties].  [server] and [id] are required by the type, but the
    constructor tests them, so they may be absent at run time. *)
Record JobProperties := {
  prop_server : option string;
  prop_id : option string;
  prop_name : option string
}.

(** The React state: the union [JobState | MultiJobState | LoadingState],
    an object whose keys accumulate, since [setState] merges. *)
Record State := {
  name : option string;
  loadStatus : option string;
  url : option string;
  buildCount : option Z;
  buildStatus : option string;
  building : option bool;
  buildProgress : option Z;
  buildTimestamp : option Z;
  jobs : option (list JenkinsJobRefResponse)
}.

Definition emptyState : State :=
  {| name := None; loadStatus := None; url := None; buildCount := None;
     buildStatus := None; building := None; buildProgress := None;
     buildTimestamp := None; jobs := None |}.

(** One key of [Object.assign]: a key of the update replaces the old one. *)
Definition assignKey {A : Type} (old upd : option A) : option A :=
  match upd with
  | Some v => Some v
  | None => old
  end.

(** The shallow merge [setState] performs. *)
Definition merge (old upd : State) : State :=
  {| name := assignKey (name old) (name upd);
     loadStatus := assignKey (loadStatus old) (loadStatus upd);
     url := assignKey (url old) (url upd);
     buildCount := assignKey (buildCount old) (buildCount upd);
     buildStatus := assignKey (buildStatus old) (buildStatus upd);
     building := assignKey (building old) (building upd);
     buildProgress := assignKey (buildProgress old) (buildProgress upd);
     buildTimestamp := assignKey (buildTimestamp old) (buildTimestamp upd);
     jobs := assignKey (jobs old) (jobs upd) |}.

Definition LOADING : string := "loading".
Definition LOADING_DONE : string := "loading-done".
Definition LOADING_ERROR : string := "loading-error".

(** The fields of a component instance. *)
Record Component := {
  props : JobProperties;
  state : option State;
  _refreshInterval : Z;
  _triggerHandle : option nat
}.

(** What the constructor throws: an [Error] whose message is the text
    [Missing property 'server' and/or 'name': ] followed by the properties
    in JSON; the properties are kept as they are. *)
Inductive Error := MissingProperty (p : JobProperties).

(** The constructor. *)
Definition constructor (p : JobProperties) : Error + Component :=
  if negb (JS.truthy JS.truthy_string (prop_server p))
     || negb (JS.truthy JS.truthy_string (prop_id p))
  then inl (MissingProperty p)
  else inr {| props := p; state := None;
              _refreshInterval := 5000; _triggerHandle := None |}.

(** [asStatusStyle]. *)
Definition asStatusStyle `{JenkinsHelpers} (job : JenkinsJobResponse) : string :=
  match getBuildStatus job with
  | SUCCESS => Styles.STATUS_SUCCESS
  | WARN => Styles.STATUS_WARN
  | ERROR => Styles.STATUS_ERROR
  | OTHER _ => Styles.STATUS_NONE
  end.

(** ** Rendering *)

(** What [render] returns: one of three [div] elements.  A child of the
    multi-job [div] is a [JenkinsJobComponent] element, given by its
    properties. *)
Inductive Element :=
| LoadingDiv (className : string) (heading : option string)
| JobDiv (className title : string) (href heading : option string)
         (progressBar : option (option Z))
| MultiDiv (children : list JobProperties).

(** [renderLoading]. *)
Definition renderLoading (job : State) : Element :=
  let className := "status " ++ JS.str (loadStatus job) in
  LoadingDiv className (name job).

(** The properties [renderMultiJob] gives to the child made for [item]. *)
Definition childProperties (p : JobProperties) (item : JenkinsJobRefResponse)
  : JobProperties :=
  {| prop_server := prop_server p;
     prop_id := Some (JS.str (prop_id p) ++ "/job/" ++ ref_name item);
     prop_name := None |}.

(** [renderMultiJob], on the array [jobs.jobs]. *)
Definition renderMultiJob (p : JobProperties) (jobs : list JenkinsJobRefResponse)
  : Element :=
  MultiDiv (map (childProperties p) jobs).

Definition ageIntervalMillis : Z := 6 * 60 * 60 * 1000.

(** The two [if]s that bring the rounded age into the range 0 to 5. *)
Definition clampAge (age : Z) : Z :=
  let age := if age <? 0 then 0 else age in
  if age >? 5 then 5 else age.

(** The age bucket [renderJob] computes at time [now]; [None] is [null]. *)
Definition jobAge (now : Z) (job : State) : option Z :=
  match buildTimestamp job with
  | Some ts =>
      if negb (JS.truthy (fun b => b) (building job)) && JS.truthy_number ts
      then Some (clampAge (JS.Math_round
                   (inject_Z (now - ts) / inject_Z ageIntervalMillis)%Q))
      else None
  | None => None
  end.

(** The [className] [renderJob] builds. *)
Definition jobClassName (now : Z) (job : State) : string :=
  let className :=
    "status " ++ JS.str (loadStatus job) ++ " " ++ JS.str (buildStatus job) in
  let className :=
    if JS.truthy (fun b => b) (building job)
    then className ++ " building" else className in
  match jobAge now job with
  | Some age =>
      if JS.truthy_number age
      then className ++ " age-" ++ JS.num_to_string age
      else className
  | None => className
  end.

Definition newline : string := String (ascii_of_nat 10) "".

(** [renderJob] at time [now]. *)
Definition renderJob `{JenkinsHelpers} (now : Z) (job : State) : Element :=
  let progressBar :=
    if JS.truthy (fun b => b) (building job)
    then Some (buildProgress job) else None in
  let infoString :=
    "Date: " ++ dateToString (buildTimestamp job) ++ newline ++ "Test: Hello" in
  JobDiv (jobClassName now job) infoString (url job) (name job) progressBar.

(** The tests by which [render] tells the variants of the state apart. *)
Definition hasBuildStatus (st : State) : bool :=
  JS.truthy JS.truthy_string (buildStatus st).

Definition hasJobs (st : State) : bool :=
  JS.truthy JS.truthy_array (jobs st).

(** [render] at time [now]. *)
Definition render `{JenkinsHelpers} (now : Z) (p : JobProperties) (st : State)
  : Element :=
  if hasBuildStatus st then renderJob now st
  else match jobs st with
       | Some js =>
           if JS.truthy_array js then renderMultiJob p js else renderLoading st
       | None => renderLoading st
       end.

(** The classes of a [className] attribute: its words between spaces. *)
Definition flush (cur : string) : list string :=
  match cur with
  | EmptyString => []
  | _ => [cur]
  end.

Fixpoint tokens (cur s : string) : list string :=
  match s with
  | EmptyString => flush cur
  | String c s' =>
      if Ascii.eqb c " "%char
      then (flush cur ++ tokens "" s')%list
      else tokens (cur ++ String c "") s'
  end.

Definition classList (className : string) : list string := tokens "" className.

(** The age classes among the classes of a [className]. *)
Definition ageClasses (className : string) : list string :=
  filter (String.prefix "age-") (classList className).

(** ** The REST client *)

Module RestClient.

(** A JavaScript value of which only truthiness and identity matter. *)
Inductive JsValue :=
| JUndefined
| JNull
| JBool (b : bool)
| JNumber (n : Z)
| JString (s : string)
| JObject.

Definition truthy_value (v : JsValue) : bool :=
  match v with
  | JUndefined | JNull => false
  | JBool b => b
  | JNumber n => JS.truthy_number n
  | JString s => JS.truthy_string s
  | JObject => true
  end.

(** [response.status]. *)
Record Status := { code : option Z; text : option string }.

(** The object handed to the callbacks of [client(request)], as far as
    [request] and [asRestError] read it: a response of the [rest]
    library, or whatever else the promise was rejected with.  A key that
    is absent is [None], respectively [JUndefined]. *)
Record Response := {
  entity : option string;
  status : option Status;
  error : JsValue
}.

(** An exception object such as a [SyntaxError] or a [TypeError]: it has
    none of the keys above. *)
Definition exceptionObject : Response :=
  {| entity := None; status := None; error := JUndefined |}.

(** [RestError]. *)
Record RestError := {
  err_url : string;
  err_code : JsValue;
  err_message : option string
}.

Definition genericMessage : string :=
  "Check JavaScript console and/or web traffic for more details.".

Definition unknownError (url : string) : RestError :=
  {| err_url := url; err_code := JString "unknown";
     err_message := Some genericMessage |}.

(** [asRestError]; a [response] that is [null] or [undefined] is [None]. *)
Definition asRestError (url : string) (response : option Response) : RestError :=
  match response with
  | Some r =>
      if truthy_value (error r)
      then {| err_url := url; err_code := error r;
              err_message := Some genericMessage |}
      else
        match status r with
        | Some st =>
            match code st with
            | Some c =>
                if JS.truthy_number c
                then
                  let text :=
                    if c =? 404
                    then Some (JS.str (text st)
                               ++ "Not found or not authenticated or not authorized.")
                    else text st in
                  {| err_url := url; err_code := JString (JS.num_to_string c);
                     err_message := text |}
                else unknownError url
            | None => unknownError url
            end
        | None => unknownError url
        end
  | None => unknownError url
  end.

(** The fields of a [RestClient]. *)
Record Client := {
  _baseUrl : string;
  _userName : option string;
  _password : option string
}.

(** The request the wrapped client sends. *)
Record RequestConfig := {
  method : string;
  path : string;
  withCredentials : bool;
  basicAuth : option (option string * option string)
}.

Definition requestConfig (c : Client) (url : string) : RequestConfig :=
  {| method := "GET"; path := url; withCredentials := true;
     basicAuth :=
       if JS.truthy JS.truthy_string (_userName c)
          && JS.truthy JS.truthy_string (_password c)
       then Some (_userName c, _password c) else None |}.

(** How a promise settles. *)
Inductive Settled (A E : Type) :=
| Resolve (a : A)
| Reject (e : E).
Arguments Resolve {A E} a.
Arguments Reject {A E} e.

(** How the promise [client(request)] settles: fulfilled with a response,
    or rejected with some value ([None] when that value is falsy). *)
Inductive ClientOutcome :=
| Fulfilled (r : Response)
| Failed (reason : option Response).

Section Request.

(** The JSON values and [JSON.parse], which throws on a malformed text. *)
Variable Json : Type.
Variable JSON_parse : string -> option Json.

(** What the fulfilment callback does with a response. *)
Inductive Handled :=
| CallsResolve (j : Json)
| CallsReject (e : RestError)
| Throws.

Definition onResponse (url : string) (response : Response) : Handled :=
  match status response with
  | Some st =>
      match code st, entity response with
      | Some c, Some body =>
          if (c =? 200) && JS.truthy_string body
          then match JSON_parse body with
               | Some jsonEntity => CallsResolve jsonEntity
               | None => Throws
               end
          else CallsReject (asRestError url (Some response))
      | _, _ => CallsReject (asRestError url (Some response))
      end
  | None => Throws
  end.

(** [request]: how the promise it returns settles, given how the
    promise of the wrapped client settles. *)
Definition request (url : string) (outcome : ClientOutcome)
  : Settled Json RestError :=
  match outcome with
  | Fulfilled response =>
      match onResponse url response with
      | CallsResolve j => Resolve j
      | CallsReject e => Reject e
      | Throws => Reject (asRestError url (Some exceptionObject))
      end
  | Failed errorResponse => Reject (asRestError url errorResponse)
  end.

End Request.

Arguments CallsResolve {Json} j.
Arguments CallsReject {Json} e.
Arguments Throws {Json}.

End RestClient.

(** ** The polling cycle on the event loop *)

(** How a request of the Jenkins client settles; the rejection value is
    only logged. *)
Inductive Answer (A : Type) :=
| Resolved (a : A)
| Rejected.
Arguments Resolved {A} a.
Arguments Rejected {A}.

(** A request that has been sent and whose promise is pending, with what
    its callbacks have captured: [interval] of [triggerLoadJob], and for
    the build request [name] and [job] of [loadJob]. *)
Inductive InFlight :=
| AwaitRead (interval : Q)
| AwaitBuild (interval : Q) (name : option string) (job : JenkinsJobResponse).

(** Where React has the component in its life. *)
Inductive Phase := Created | Mounted | Unmounted.

(** The component together with the part of the browser it acts on: the
    timeouts of [window] that have not fired or been cleared (handle and
    delay), the next free handle, and the pending requests.  Time itself is
    not modelled: a pending timeout may fire, and a pending request may be
    answered, at any turn of the event loop. *)
Record World := {
  component : Component;
  phase : Phase;
  timers : list (nat * Q);
  nextHandle : nat;
  inflight : list InFlight
}.

(** What the event loop does next.  [r] is the number [Math.random]
    returns in the call of [triggerLoadJob] the event leads to; [i] picks
    the pending request that settles. *)
Inductive Event :=
| EvMount (r : Q)
| EvTimeout (handle : nat) (r : Q)
| EvRead (i : nat) (answer : Answer JenkinsJobResponse)
| EvBuild (i : nat) (answer : Answer JenkinsBuildResponse)
| EvUnmount.

Definition initial (c : Component) : World :=
  {| component := c; phase := Created; timers := [];
     nextHandle := 1; inflight := [] |}.

Definition with_state (c : Component) (st : option State) : Component :=
  {| props := props c; state := st;
     _refreshInterval := _refreshInterval c;
     _triggerHandle := _triggerHandle c |}.

Definition with_handle (c : Component) (h : option nat) : Component :=
  {| props := props c; state := state c;
     _refreshInterval := _refreshInterval c;
     _triggerHandle := h |}.

(** [this.setState(update)]: React merges the update into the state; on a
    component that has been unmounted it does nothing. *)
Definition setState (w : World) (update : State) : World :=
  match phase w with
  | Unmounted => w
  | _ =>
      let old := match state (component w) with
                 | Some st => st
                 | None => emptyState
                 end in
      {| component := with_state (component w) (Some (merge old update));
         phase := phase w; timers := timers w;
         nextHandle := nextHandle w; inflight := inflight w |}
  end.

(** [this._triggerHandle = window.setTimeout(() => this.triggerLoadJob(), interval)]. *)
Definition setTimeout (w : World) (interval : Q) : World :=
  {| component := with_handle (component w) (Some (nextHandle w));
     phase := phase w;
     timers := (timers w ++ [(nextHandle w, interval)])%list;
     nextHandle := S (nextHandle w);
     inflight := inflight w |}.

Definition remove_timer (h : nat) (ts : list (nat * Q)) : list (nat * Q) :=
  filter (fun t => negb (Nat.eqb (fst t) h)) ts.

(** [window.clearTimeout(handle)]; an undefined or stale handle clears
    nothing. *)
Definition clearTimeout (w : World) (handle : option nat) : World :=
  match handle with
  | Some h =>
      {| component := component w; phase := phase w;
         timers := remove_timer h (timers w);
         nextHandle := nextHandle w; inflight := inflight w |}
  | None => w
  end.

Definition send (w : World) (f : InFlight) : World :=
  {| component := component w; phase := phase w; timers := timers w;
     nextHandle := nextHandle w; inflight := (inflight w ++ [f])%list |}.

Fixpoint remove_nth {A : Type} (i : nat) (l : list A) : list A :=
  match l, i with
  | [], _ => []
  | _ :: l', O => l'
  | x :: l', S i' => x :: remove_nth i' l'
  end.

Definition settle (w : World) (i : nat) : World :=
  {| component := component w; phase := phase w; timers := timers w;
     nextHandle := nextHandle w; inflight := remove_nth i (inflight w) |}.

Definition with_phase (w : World) (ph : Phase) : World :=
  {| component := component w; phase := ph; timers := timers w;
     nextHandle := nextHandle w; inflight := inflight w |}.

(** [name] if it is truthy, [fallback] otherwise. *)
Definition orElse (name fallback : option string) : option string :=
  if JS.truthy JS.truthy_string name then name else fallback.

(** [getDisplayNameFromPropOrState]. *)
Definition getDisplayNameFromPropOrState (c : Component) : option string :=
  let fromProps := orElse (prop_name (props c)) (prop_id (props c)) in
  match state c with
  | Some st => if JS.truthy JS.truthy_string (name st) then name st else fromProps
  | None => fromProps
  end.

(** The delay [triggerLoadJob] computes from the number [r] drawn:
    [this._refreshInterval + Math.random() * 500], a product and a sum of
    doubles. *)
Definition interval (c : Component) (r : Q) : Q :=
  Binary64.add (inject_Z (_refreshInterval c)) (Binary64.mul r 500%Q).

(** [triggerLoadJob], up to the point where the request of [loadJob] has
    been sent. *)
Definition triggerLoadJob (r : Q) (w : World) : World :=
  let interval := interval (component w) r in
  let w := setState w
    {| name := getDisplayNameFromPropOrState (component w);
       loadStatus := Some LOADING;
       url := None; buildCount := None; buildStatus := None; building := None;
       buildProgress := None; buildTimestamp := None; jobs := None |} in
  send w (AwaitRead interval).

(** The fulfilment callback of [triggerLoadJob]: the promise of [loadJob]
    was resolved with [st]. *)
Definition loadJobResolved (w : World) (interval : Q) (st : State) : World :=
  setTimeout (setState w st) interval.

(** The [catch] callback of [triggerLoadJob]: the promise of [loadJob]
    was rejected. *)
Definition loadJobRejected (w : World) (interval : Q) : World :=
  setTimeout w interval.

(** The state [loadJob] resolves with when [client.read] was rejected. *)
Definition errorState (c : Component) : State :=
  {| name := getDisplayNameFromPropOrState c;
     loadStatus := Some LOADING_ERROR;
     url := None; buildCount := None;
     buildStatus := Some Styles.STATUS_NONE;
     building := None; buildProgress := None; buildTimestamp := None;
     jobs := None |}.

(** The state [loadJob] resolves with for a multi-job.  A multi-job has
    its array of jobs, as its type says; for a response without one the
    program would write [undefined] over older jobs, which [merge], for
    which [None] is an absent key, does not do. *)
Definition multiJobState (c : Component) (multiJob : JenkinsJobResponse) : State :=
  {| name := getDisplayNameFromPropOrState c;
     loadStatus := Some LOADING_DONE;
     url := None; buildCount := None; buildStatus := None; building := None;
     buildProgress := None; buildTimestamp := None;
     jobs := job_jobs multiJob |}.

(** The state [loadJob] resolves with for a single job and its last build. *)
Definition jobState `{JenkinsHelpers} (name : option string)
  (singleJob : JenkinsJobResponse) (build : JenkinsBuildResponse) : State :=
  {| name := name;
     url := Some (job_url singleJob);
     loadStatus := Some LOADING_DONE;
     buildCount := Some (match builds singleJob with
                         | Some bs => Z.of_nat (List.length bs)
                         | None => 0
                         end);
     buildStatus := Some (asStatusStyle singleJob);
     building := Some (isBuilding singleJob);
     buildProgress := Some (getProgressPercent build);
     buildTimestamp := Some (timestamp build);
     jobs := None |}.

(** The callbacks [loadJob] puts on the promise of [client.read]. *)
Definition onRead `{JenkinsHelpers} (w : World) (interval : Q)
  (answer : Answer JenkinsJobResponse) : World :=
  match answer with
  | Resolved job =>
      let name := orElse (prop_name (props (component w))) (job_displayName job) in
      let name := orElse name (prop_id (props (component w))) in
      if isSingleJob job
      then send w (AwaitBuild interval name job)
      else if isMultiJob job
      then loadJobResolved w interval (multiJobState (component w) job)
      else loadJobRejected w interval
  | Rejected => loadJobResolved w interval (errorState (component w))
  end.

(** The callback [loadJob] puts on the promise of [client.readBuild]; a
    rejection of that promise rejects the promise of [loadJob]. *)
Definition onBuild `{JenkinsHelpers} (w : World) (interval : Q)
  (name : option string) (job : JenkinsJobResponse)
  (answer : Answer JenkinsBuildResponse) : World :=
  match answer with
  | Resolved build => loadJobResolved w interval (jobState name job build)
  | Rejected => loadJobRejected w interval
  end.

(** [componentWillUnmount]. *)
Definition componentWillUnmount (w : World) : World :=
  clearTimeout w (_triggerHandle (component w)).

Definition pending_timer (h : nat) (ts : list (nat * Q)) : bool :=
  existsb (fun t => Nat.eqb (fst t) h) ts.

(** One turn of the event loop; [None] when the event cannot happen in
    [w].  React calls [componentWillMount] once, on a component not yet
    mounted, and [componentWillUnmount] once, on a mounted one; a timeout
    that fires is no longer pending, and its callback runs whether or not
    the component is still mounted. *)
Definition step `{JenkinsHelpers} (w : World) (e : Event) : option World :=
  match e with
  | EvMount r =>
      match phase w with
      | Created => Some (triggerLoadJob r (with_phase w Mounted))
      | _ => None
      end
  | EvTimeout h r =>
      if pending_timer h (timers w)
      then Some (triggerLoadJob r (clearTimeout w (Some h)))
      else None
  | EvRead i answer =>
      match nth_error (inflight w) i with
      | Some (AwaitRead interval) => Some (onRead (settle w i) interval answer)
      | _ => None
      end
  | EvBuild i answer =>
      match nth_error (inflight w) i with
      | Some (AwaitBuild interval name job) =>
          Some (onBuild (settle w i) interval name job answer)
      | _ => None
      end
  | EvUnmount =>
      match phase w with
      | Mounted => Some (with_phase (componentWillUnmount w) Unmounted)
      | _ => None
      end
  end.

Fixpoint run `{JenkinsHelpers} (w : World) (es : list Event) : option World :=
  match es with
  | [] => Some w
  | e :: es' =>
      match step w e with
      | Some w' => run w' es'
      | None => None
      end
  end.

(** ** An instance for the examples *)

(** Modelled from the spec: one choice of the functions of [JenkinsClient],
    which is not among the sources, used where an example needs concrete
    functions.  A single job is a response with a build list and a multi-job
    one with child jobs; the progress is a value between 0 and 100; the
    classification maps the upstream result and the building flag to one of
    the members.  The examples do not depend on the last three choices. *)
Definition specHelpers : JenkinsHelpers :=
  {| isSingleJob := fun job =>
       match builds job with Some _ => true | None => false end;
     isMultiJob := fun job =>
       match job_jobs job with Some _ => true | None => false end;
     isBuilding := job_building;
     getProgressPercent := fun build =>
       Z.max 0 (Z.min 100 (build_progress build));
     classify := fun result _ =>
       match result with
       | Some "SUCCESS" => SUCCESS
       | Some "UNSTABLE" => WARN
       | Some "FAILURE" => ERROR
       | _ => OTHER 0
       end;
     dateToString := fun t =>
       match t with
       | Some ms => JS.num_to_string ms
       | None => "Invalid Date"
       end |}.

(** The properties of the widget of the examples. *)
Definition exampleProps : JobProperties :=
  {| prop_server := Some "ci"; prop_id := Some "folder"; prop_name := None |}.

Definition exampleComponent : Component :=
  {| props := exampleProps; state := None;
     _refreshInterval := 5000; _triggerHandle := None |}.

(** A job with one build, two seconds after the epoch. *)
Definition exampleSingleJob : JenkinsJobResponse :=
  {| job_displayName := Some "nightly"; job_url := "http://ci/job/nightly";
     lastBuild := Some {| build_number := 7; build_url := "http://ci/job/nightly/7" |};
     builds := Some [ {| build_number := 7; build_url := "http://ci/job/nightly/7" |} ];
     job_jobs := None; job_result := Some "SUCCESS"; job_building := false |}.

Definition exampleBuild : JenkinsBuildResponse :=
  {| timestamp := 2000; build_building := false; build_progress := 100 |}.

(** A folder with two child jobs. *)
Definition exampleMultiJob : JenkinsJobResponse :=
  {| job_displayName := Some "folder"; job_url := "http://ci/job/folder";
     lastBuild := None; builds := None;
     job_jobs := Some [ {| ref_name := "a" |}; {| ref_name := "b" |} ];
     job_result := None; job_building := false |}.

(** A response that is neither a single job nor a multi-job. *)
Definition exampleUnsupportedJob : JenkinsJobResponse :=
  {| job_displayName := None; job_url := "http://ci/view/all";
     lastBuild := None; builds := None; job_jobs := None;
     job_result := None; job_building := false |}.

(** The state of the example widget after it has loaded the single job. *)
Definition exampleTile : State :=
  {| name := Some "nightly"; loadStatus := Some LOADING_DONE;
     url := Some "http://ci/job/nightly"; buildCount := Some 1;
     buildStatus := Some Styles.STATUS_SUCCESS; building := Some false;
     buildProgress := Some 100; buildTimestamp := Some 2000; jobs := None |}.

(** ** Notions the properties are stated with *)

(** The worlds a constructed component can get into. *)
Definition reachable `{JenkinsHelpers} (c : Component) (w : World) : Prop :=
  exists es, run (initial c) es = Some w.

(** The numbers [Math.random] may return. *)
Definition unit_interval (r : Q) : Prop := (0 <= r)%Q /\ (r < 1)%Q.

Definition draw_ok (e : Event) : Prop :=
  match e with
  | EvMount r | EvTimeout _ r => unit_interval r
  | _ => True
  end.

(** The number drawn by the latest event that started a cycle. *)
Definition drawOf (last : option Q) (e : Event) : option Q :=
  match e with
  | EvMount r | EvTimeout _ r => Some r
  | _ => last
  end.

Definition lastDraw (es : list Event) : option Q := fold_left drawOf es None.

(** A delay of the base interval plus the jitter of the number drawn last,
    [5000 + r * 500] in binary64. *)
Definition jittered (last : option Q) (d : Q) : Prop :=
  exists r, last = Some r /\ unit_interval r
            /\ d = Binary64.add 5000%Q (Binary64.mul r 500%Q).

Definition captured (f : InFlight) : Q :=
  match f with
  | AwaitRead interval => interval
  | AwaitBuild interval _ _ => interval
  end.

(** The events with which the promise of [loadJob] settles, that is, with
    which the fetch of a cycle completes: an answer to [client.read] unless
    it is a single job, whose build is then requested, and any answer to
    [client.readBuild]. *)
Definition completes `{JenkinsHelpers} (e : Event) : bool :=
  match e with
  | EvRead _ (Resolved job) => negb (isSingleJob job)
  | EvRead _ Rejected => true
  | EvBuild _ _ => true
  | _ => false
  end.

(** The events of the polling cycle: all but the unmounting. *)
Definition polling (e : Event) : bool :=
  match e with
  | EvUnmount => false
  | _ => true
  end.

(** At most one of a pending request and a pending timeout exists, and
    from mounting on exactly one, unless the component was unmounted while
    the timeout was pending. *)
Definition cycle_invariant (w : World) : Prop :=
  (phase w = Created /\ inflight w = [] /\ timers w = [])
  \/ (phase w <> Created /\ exists f, inflight w = [f] /\ timers w = [])
  \/ (phase w <> Created /\ inflight w = []
      /\ exists h d, timers w = [(h, d)]
                     /\ _triggerHandle (component w) = Some h)
  \/ (phase w = Unmounted /\ inflight w = [] /\ timers w = []).

(** The delays of all pending timeouts and requests are those of the
    number drawn last. *)
Definition delays_invariant (last : option Q) (w : World) : Prop :=
  _refreshInterval (component w) = 5000
  /\ Forall (fun t => jittered last (snd t)) (timers w)
  /\ Forall (fun f => jittered last (captured f)) (inflight w).

(** [JSON.parse] on the texts of the examples: the three literals parse,
    and a lone opening brace, like the other texts that are not JSON, is
    malformed. *)
Definition parseLiteral (text : string) : option RestClient.JsValue :=
  if String.eqb text "null" then Some RestClient.JNull
  else if String.eqb text "true" then Some (RestClient.JBool true)
  else if String.eqb text "false" then Some (RestClient.JBool false)
  else None.

(** ** Notions for the further properties *)

(** The update with which [triggerLoadJob] starts a cycle. *)
Definition loadingState (c : Component) : State :=
  {| name := getDisplayNameFromPropOrState c;
     loadStatus := Some LOADING;
     url := None; buildCount := None; buildStatus := None; building := None;
     buildProgress := None; buildTimestamp := None; jobs := None |}.

(** The name [loadJob] works out for a job: the name of the properties,
    else the display name of the job, else the id. *)
Definition jobName (p : JobProperties) (job : JenkinsJobResponse)
  : option string :=
  orElse (orElse (prop_name p) (job_displayName job)) (prop_id p).

(** The state [setState] merges into: an undefined state counts as empty. *)
Definition currentState (c : Component) : State :=
  match state c with
  | Some st => st
  | None => emptyState
  end.

(** The load status is one the component writes, the build status, if
    any, one of the four styles, and the name is not empty. *)
Definition state_wellformed (st : State) : Prop :=
  (exists l, loadStatus st = Some l /\ In l [LOADING; LOADING_DONE; LOADING_ERROR])
  /\ (buildStatus st = None
      \/ exists s, buildStatus st = Some s /\ In s Styles.all)
  /\ JS.truthy JS.truthy_string (name st) = true.

(** The name a pending build request has captured is the one [loadJob]
    worked out from the properties and the job. *)
Definition names_captured (p : JobProperties) (w : World) : Prop :=
  Forall (fun f => match f with
                   | AwaitBuild _ nm job => nm = jobName p job
                   | AwaitRead _ => True
                   end) (inflight w).

(** The properties of the descendant reached from [p] along the child
    names [path], as [renderMultiJob] builds them level by level. *)
Definition descendantProperties (p : JobProperties) (path : list string)
  : JobProperties :=
  fold_left (fun q n => childProperties q {| ref_name := n |}) path p.

(** The part of an id that a path of child names adds. *)
Fixpoint pathSuffix (path : list string) : string :=
  match path with
  | [] => ""
  | n :: path' => "/job/" ++ n ++ pathSuffix path'
  end.

Definition threeHours : Z := 3 * 60 * 60 * 1000.

(** The age class [renderJob] appends for a bucket, if any. *)
Definition ageClassOf (bucket : option Z) : list string :=
  match bucket with
  | Some age => if age =? 0 then [] else ["age-" ++ JS.num_to_string age]
  | None => []
  end.

(** The update an event merges into the state: the loading update when
    a cycle starts, the error state when the job request is rejected, the
    multi-job state, or the state of the single job whose build request is
    answered. *)
Definition update_of `{JenkinsHelpers} (w : World) (e : Event) (u : State)
  : Prop :=
  (u = loadingState (component w)
   /\ ((exists r, e = EvMount r) \/ exists h r, e = EvTimeout h r))
  \/ (u = errorState (component w) /\ exists i, e = EvRead i Rejected)
  \/ (exists i job,
        e = EvRead i (Resolved job)
        /\ isSingleJob job = false /\ isMultiJob job = true
        /\ u = multiJobState (component w) job)
  \/ (exists i d nm job build,
        e = EvBuild i (Resolved build)
        /\ nth_error (inflight w) i = Some (AwaitBuild d nm job)
        /\ u = jobState nm job build).

(** The state, once there is one, is well-formed and shows the name of
    the properties if they have one. *)
Definition state_ok (p : JobProperties) (c : Component) : Prop :=
  forall st, state c = Some st ->
    state_wellformed st
    /\ (JS.truthy JS.truthy_string (prop_name p) = true ->
        name st = prop_name p).

Definition widget_invariant (p : JobProperties) (w : World) : Prop :=
  props (component w) = p
  /\ names_captured p w
  /\ (phase w = Created \/ state (component w) <> None)
  /\ state_ok p (component w).

(** The example widget after mounting, its job request pending, and after
    the folder has answered, the timeout of the next refresh pending. *)
Definition exampleFetching : World :=
  triggerLoadJob (1 # 2) (with_phase (initial exampleComponent) Mounted).

Definition exampleWaiting : World :=
  @onRead specHelpers (settle exampleFetching 0)
    (interval exampleComponent (1 # 2)) (Resolved exampleMultiJob).

(** A mounted widget that shows the example tile and waits for the
    timeout of its next refresh. *)
Definition exampleShowingTile : World :=
  {| component := {| props := exampleProps; state := Some exampleTile;
                     _refreshInterval := 5000; _triggerHandle := Some 1%nat |};
     phase := Mounted; timers := [(1%nat, 5250 # 1)];
     nextHandle := 2; inflight := [] |}.

(** The largest double below 1. *)
Definition largestDraw : Q := (1 - (1 # 2) ^ 53)%Q.

(** * Properties *)

(** ** Strings and class lists *)

Lemma append_assoc (a b c : string) : (a ++ b) ++ c = a ++ (b ++ c).
Proof.
  induction a as [|ch a IH]; simpl; [reflexivity | now rewrite IH].
Qed.

Lemma tokens_space (a b cur : string) :
  tokens cur (a ++ String " " b) = (tokens cur a ++ tokens "" b)%list.
Proof.
  revert cur; induction a as [|ch a IH]; intros cur; simpl.
  - reflexivity.
  - destruct (Ascii.eqb ch " ").
    + now rewrite IH, app_assoc.
    + apply IH.
Qed.

Lemma classList_space (a b : string) :
  classList (a ++ String " " b) = (classList a ++ classList b)%list.
Proof. apply tokens_space. Qed.

Lemma ageClasses_space (a b : string) :
  ageClasses (a ++ String " " b) = (ageClasses a ++ ageClasses b)%list.
Proof.
  unfold ageClasses; now rewrite classList_space, filter_app.
Qed.

(** The classes the component itself writes are no age classes. *)
Lemma ageClasses_style (s : string) : In s Styles.all -> ageClasses s = [].
Proof.
  intros [<-|[<-|[<-|[<-|[]]]]]; reflexivity.
Qed.

Lemma ageClasses_loadStatus (s : string) :
  In s [LOADING; LOADING_DONE; LOADING_ERROR] -> ageClasses s = [].
Proof.
  intros [<-|[<-|[<-|[]]]]; reflexivity.
Qed.

Lemma Some_inj {A : Type} (x y : A) : Some x = Some y -> x = y.
Proof. congruence. Qed.

(** ** Age buckets *)

Lemma ageIntervalMillis_pos : 0 < ageIntervalMillis.
Proof. reflexivity. Qed.

(** Rounding a ratio of integers, in integer arithmetic. *)
Lemma Math_round_ratio (d i : Z) :
  0 < i ->
  JS.Math_round (inject_Z d / inject_Z i)%Q = (2 * d + i) / (2 * i).
Proof.
  intros Hi. unfold JS.Math_round.
  rewrite Zdiv_Qdiv. apply Qfloor_comp.
  rewrite !inject_Z_plus, !inject_Z_mult.
  assert (Hq : ~ (inject_Z i == 0)%Q).
  { intros E. change 0%Q with (inject_Z 0) in E.
    apply (proj1 (inject_Z_injective i 0)) in E. lia. }
  field. exact Hq.
Qed.

Lemma clampAge_range (a : Z) : 0 <= clampAge a <= 5.
Proof.
  unfold clampAge.
  destruct (a <? 0) eqn:E1; simpl.
  - lia.
  - destruct (a >? 5) eqn:E2; lia.
Qed.

Lemma clampAge_mono (a b : Z) : a <= b -> clampAge a <= clampAge b.
Proof.
  intros Hab. unfold clampAge.
  destruct (a <? 0) eqn:Ea, (b <? 0) eqn:Eb; simpl;
    repeat match goal with
           | |- context [?x >? 5] => destruct (x >? 5) eqn:?
           end; lia.
Qed.

Lemma clampAge_spec (a : Z) : clampAge a = Z.max 0 (Z.min 5 a).
Proof.
  unfold clampAge.
  destruct (a <? 0) eqn:E1; simpl.
  - lia.
  - destruct (a >? 5) eqn:E2; lia.
Qed.

(** The bucket of a job that is not building and has a time stamp. *)
Lemma jobAge_eq (now ts : Z) (job : State) :
  JS.truthy (fun b => b) (building job) = false ->
  buildTimestamp job = Some ts ->
  ts <> 0 ->
  jobAge now job
  = Some (clampAge ((2 * (now - ts) + ageIntervalMillis) / (2 * ageIntervalMillis))).
Proof.
  intros Hb Hts Hnz. unfold jobAge. rewrite Hts, Hb.
  unfold JS.truthy_number.
  destruct (Z.eqb_spec ts 0) as [E|_]; [contradiction|]. simpl.
  now rewrite (Math_round_ratio _ _ ageIntervalMillis_pos).
Qed.

(** Whenever a bucket is computed, the job is not building and has a
    time stamp, and the bucket is in range. *)
Lemma jobAge_some (now a : Z) (job : State) :
  jobAge now job = Some a ->
  JS.truthy (fun b => b) (building job) = false
  /\ (exists ts, buildTimestamp job = Some ts /\ ts <> 0)
  /\ 0 <= a <= 5.
Proof.
  unfold jobAge. destruct (buildTimestamp job) as [ts|]; [|discriminate].
  destruct (JS.truthy (fun b => b) (building job)); simpl; [discriminate|].
  unfold JS.truthy_number. destruct (Z.eqb_spec ts 0) as [E|N]; simpl;
    [discriminate|].
  intros [= <-]. split; [reflexivity|]. split.
  - exists ts. now split.
  - apply clampAge_range.
Qed.

(** ** The constructor *)

Lemma truthy_string_iff (x : option string) :
  JS.truthy JS.truthy_string x = true <-> exists s, x = Some s /\ s <> "".
Proof.
  destruct x as [s|]; simpl; unfold JS.truthy_string.
  - destruct (String.eqb_spec s ""); simpl; split.
    + discriminate.
    + intros (s' & [= <-] & N). contradiction.
    + intros _. now exists s.
    + reflexivity.
  - split; [discriminate | intros (s & E & _); discriminate].
Qed.

Lemma falsy_string_iff (x : option string) :
  JS.truthy JS.truthy_string x = false <-> (x = None \/ x = Some "").
Proof.
  destruct x as [s|]; simpl; unfold JS.truthy_string.
  - destruct (String.eqb_spec s ""); simpl; split.
    + intros _. right. now subst.
    + reflexivity.
    + discriminate.
    + intros [E|[= E]]; [discriminate | contradiction].
  - split; [now left | reflexivity].
Qed.

(** C9: the constructor throws when [server] or [id] is missing or is the
    empty string, and for all properties whose [server] and [id] are both
    non-empty strings it succeeds, giving a component with these properties. *)
Theorem constructor_requires_server_and_id (p : JobProperties) :
  ((prop_server p = None \/ prop_server p = Some ""
    \/ prop_id p = None \/ prop_id p = Some "") ->
   constructor p = inl (MissingProperty p))
  /\ (forall s i,
        prop_server p = Some s -> s <> "" ->
        prop_id p = Some i -> i <> "" ->
        exists c, constructor p = inr c /\ props c = p).
Proof.
  unfold constructor. split.
  - intros H.
    assert (E : JS.truthy JS.truthy_string (prop_server p) = false
                \/ JS.truthy JS.truthy_string (prop_id p) = false).
    { rewrite !falsy_string_iff. tauto. }
    destruct E as [-> | ->]; simpl; [reflexivity|].
    now rewrite orb_true_r.
  - intros s i Hs Ns Hi Ni.
    assert (Es : JS.truthy JS.truthy_string (prop_server p) = true)
      by (apply truthy_string_iff; eauto).
    assert (Ei : JS.truthy JS.truthy_string (prop_id p) = true)
      by (apply truthy_string_iff; eauto).
    rewrite Es, Ei. simpl. eexists. split; reflexivity.
Qed.

Lemma constructor_requires_server_and_id_witness :
  constructor {| prop_server := None; prop_id := Some "job"; prop_name := None |}
  = inl (MissingProperty
           {| prop_server := None; prop_id := Some "job"; prop_name := None |})
  /\ exists c, constructor exampleProps = inr c /\ props c = exampleProps.
Proof.
  split.
  - apply (proj1 (constructor_requires_server_and_id
                    {| prop_server := None; prop_id := Some "job";
                       prop_name := None |})).
    left. reflexivity.
  - apply (proj2 (constructor_requires_server_and_id exampleProps) "ci" "folder");
      solve [reflexivity | discriminate].
Defined.

(** ** Status classification *)

(** C4: whatever the classification of [JenkinsClient] is, [asStatusStyle]
    returns one of the four display classes, which are pairwise different,
    and what it returns is a function of the result and the building flag
    of the response. *)
Theorem asStatusStyle_one_of_four (H : JenkinsHelpers) :
  NoDup Styles.all
  /\ List.length Styles.all = 4%nat
  /\ exists f : option string -> bool -> string,
       forall job : JenkinsJobResponse,
         asStatusStyle job = f (job_result job) (job_building job)
         /\ In (asStatusStyle job) Styles.all.
Proof.
  split; [|split].
  - unfold Styles.all.
    repeat (constructor; [simpl; intuition discriminate|]). constructor.
  - reflexivity.
  - exists (fun result building =>
              match classify result building with
              | SUCCESS => Styles.STATUS_SUCCESS
              | WARN => Styles.STATUS_WARN
              | ERROR => Styles.STATUS_ERROR
              | OTHER _ => Styles.STATUS_NONE
              end).
    intros job. split; [reflexivity|].
    unfold asStatusStyle, getBuildStatus, Styles.all.
    destruct (classify (job_result job) (job_building job)); simpl; tauto.
Qed.

(** ** The age bucket *)

(** C6: for a job that is not building and has a time stamp, the age
    bucket is defined and lies between 0 and 5; it is the number of six-hour
    intervals elapsed since the build, rounded to the nearest and brought
    into that range; it does not decrease when time goes on; and, from the
    time of the build on, six more hours raise it by one until it is 5. *)
Theorem age_bucket_monotone_clamped (job : State) (ts : Z) :
  JS.truthy (fun b => b) (building job) = false ->
  buildTimestamp job = Some ts ->
  ts <> 0 ->
  (forall now, exists a,
      jobAge now job = Some a /\ 0 <= a <= 5
      /\ a = Z.max 0 (Z.min 5 ((now - ts + 3 * 60 * 60 * 1000)
                                / (6 * 60 * 60 * 1000))))
  /\ (forall now1 now2 a1 a2,
        now1 <= now2 ->
        jobAge now1 job = Some a1 -> jobAge now2 job = Some a2 ->
        a1 <= a2)
  /\ (forall now a,
        ts <= now ->
        jobAge now job = Some a ->
        jobAge (now + 6 * 60 * 60 * 1000) job = Some (Z.min 5 (a + 1))).
Proof.
  intros Hb Hts Hnz.
  assert (Hhalf : forall d,
             (2 * d + ageIntervalMillis) / (2 * ageIntervalMillis)
             = (d + 3 * 60 * 60 * 1000) / (6 * 60 * 60 * 1000)).
  { intros d. unfold ageIntervalMillis.
    replace (2 * d + 6 * 60 * 60 * 1000) with ((d + 3 * 60 * 60 * 1000) * 2) by lia.
    replace (2 * (6 * 60 * 60 * 1000)) with ((6 * 60 * 60 * 1000) * 2) by lia.
    apply Z.div_mul_cancel_r; lia. }
  split; [|split].
  - intros now. eexists. split; [apply (jobAge_eq now ts job Hb Hts Hnz)|].
    split; [apply clampAge_range|].
    now rewrite clampAge_spec, Hhalf.
  - intros now1 now2 a1 a2 Hle E1 E2.
    rewrite (jobAge_eq now1 ts job Hb Hts Hnz) in E1.
    rewrite (jobAge_eq now2 ts job Hb Hts Hnz) in E2.
    apply Some_inj in E1, E2. subst a1 a2.
    apply clampAge_mono. apply Z.div_le_mono.
    + pose proof ageIntervalMillis_pos. lia.
    + lia.
  - intros now a Hnow E.
    rewrite (jobAge_eq now ts job Hb Hts Hnz) in E.
    rewrite (jobAge_eq _ ts job Hb Hts Hnz).
    apply Some_inj in E. subst a. f_equal.
    rewrite !clampAge_spec, !Hhalf.
    replace (now + 6 * 60 * 60 * 1000 - ts + 3 * 60 * 60 * 1000)
      with ((now - ts + 3 * 60 * 60 * 1000) + 1 * (6 * 60 * 60 * 1000)) by lia.
    rewrite Z.div_add by lia.
    assert (0 <= (now - ts + 3 * 60 * 60 * 1000) / (6 * 60 * 60 * 1000))
      by (apply Z.div_pos; lia).
    lia.
Qed.

Lemma age_bucket_monotone_clamped_witness :
  exists a,
    jobAge 43202000 exampleTile = Some a /\ 0 <= a <= 5
    /\ a = Z.max 0 (Z.min 5 ((43202000 - 2000 + 3 * 60 * 60 * 1000)
                              / (6 * 60 * 60 * 1000))).
Proof.
  apply (proj1 (age_bucket_monotone_clamped exampleTile 2000
                  eq_refl eq_refl ltac:(discriminate)) 43202000).
Defined.

(** ** The age class of a tile *)

Lemma ageClasses_base (job : State) :
  ageClasses (JS.str (loadStatus job)) = [] ->
  ageClasses (JS.str (buildStatus job)) = [] ->
  ageClasses ("status " ++ JS.str (loadStatus job) ++ " " ++ JS.str (buildStatus job))
  = [].
Proof.
  intros Hl Hs.
  change ("status " ++ JS.str (loadStatus job) ++ " " ++ JS.str (buildStatus job))
    with ("status" ++ String " " (JS.str (loadStatus job)
                                  ++ String " " (JS.str (buildStatus job)))).
  now rewrite !ageClasses_space, Hl, Hs.
Qed.

Lemma ageClasses_building (job : State) :
  ageClasses (JS.str (loadStatus job)) = [] ->
  ageClasses (JS.str (buildStatus job)) = [] ->
  ageClasses
    (if JS.truthy (fun b => b) (building job)
     then ("status " ++ JS.str (loadStatus job) ++ " " ++ JS.str (buildStatus job))
          ++ " building"
     else "status " ++ JS.str (loadStatus job) ++ " " ++ JS.str (buildStatus job))
  = [].
Proof.
  intros Hl Hs. destruct (JS.truthy (fun b => b) (building job)).
  - change " building" with (String " " "building").
    now rewrite ageClasses_space, ageClasses_base.
  - now apply ageClasses_base.
Qed.

(** The age classes of the [className] of a tile, from its bucket. *)
Lemma ageClasses_jobClassName (now : Z) (job : State) :
  ageClasses (JS.str (loadStatus job)) = [] ->
  ageClasses (JS.str (buildStatus job)) = [] ->
  ageClasses (jobClassName now job)
  = match jobAge now job with
    | Some age => if age =? 0 then [] else ["age-" ++ JS.num_to_string age]
    | None => []
    end.
Proof.
  intros Hl Hs. unfold jobClassName.
  pose proof (ageClasses_building job Hl Hs) as Hb.
  destruct (jobAge now job) as [age|] eqn:Eage; [|exact Hb].
  apply jobAge_some in Eage. destruct Eage as (_ & _ & Hrange).
  unfold JS.truthy_number.
  destruct (Z.eqb_spec age 0) as [->|Hnz]; simpl negb; cbv iota; [exact Hb|].
  change (" age-" ++ JS.num_to_string age)
    with (String " " ("age-" ++ JS.num_to_string age)).
  rewrite ageClasses_space, Hb. simpl app.
  assert (Hcases : age = 1 \/ age = 2 \/ age = 3 \/ age = 4 \/ age = 5) by lia.
  destruct Hcases as [->|[->|[->|[->| ->]]]]; reflexivity.
Qed.

(** C10: the tile of a job carries an age class only when the job is not
    building, has a time stamp and its bucket is between 1 and 5, and the
    class is then the one of the bucket; when the bucket is 0 or the job is
    building there is no age class.  The load status and the build status
    are taken not to be age classes themselves, as is the case for those
    the component writes. *)
Theorem age_class_only_for_buckets_1_to_5 (now : Z) (job : State) :
  ageClasses (JS.str (loadStatus job)) = [] ->
  ageClasses (JS.str (buildStatus job)) = [] ->
  (ageClasses (jobClassName now job) <> [] ->
   JS.truthy (fun b => b) (building job) = false
   /\ (exists ts, buildTimestamp job = Some ts /\ ts <> 0)
   /\ exists n, jobAge now job = Some n /\ 1 <= n <= 5
                /\ ageClasses (jobClassName now job)
                   = ["age-" ++ JS.num_to_string n])
  /\ (JS.truthy (fun b => b) (building job) = true \/ jobAge now job = Some 0 ->
      ageClasses (jobClassName now job) = []).
Proof.
  intros Hl Hs. rewrite (ageClasses_jobClassName now job Hl Hs). split.
  - destruct (jobAge now job) as [age|] eqn:Eage; [|congruence].
    destruct (Z.eqb_spec age 0) as [->|Hnz]; [congruence|].
    intros _. destruct (jobAge_some _ _ _ Eage) as (Hb & Hts & Hr).
    split; [exact Hb|]. split; [exact Hts|].
    exists age. repeat split; try lia.
  - intros [Hb | ->]; [|reflexivity].
    destruct (jobAge now job) as [age|] eqn:Eage; [|reflexivity].
    apply jobAge_some in Eage. destruct Eage as (Hb' & _). congruence.
Qed.

Lemma age_class_only_for_buckets_1_to_5_witness :
  JS.truthy (fun b => b) (building exampleTile) = false
  /\ (exists ts, buildTimestamp exampleTile = Some ts /\ ts <> 0)
  /\ exists n, jobAge 43202000 exampleTile = Some n /\ 1 <= n <= 5
               /\ ageClasses (jobClassName 43202000 exampleTile)
                  = ["age-" ++ JS.num_to_string n].
Proof.
  apply (proj1 (age_class_only_for_buckets_1_to_5 43202000 exampleTile
                  eq_refl eq_refl)).
  vm_compute. discriminate.
Defined.

(** ** The REST client *)

Lemma asRestError_url (url : string) (response : option RestClient.Response) :
  RestClient.err_url (RestClient.asRestError url response) = url.
Proof.
  unfold RestClient.asRestError, RestClient.unknownError.
  destruct response as [r|]; [|reflexivity].
  destruct (RestClient.truthy_value (RestClient.error r)); [reflexivity|].
  destruct (RestClient.status r) as [st|]; [|reflexivity].
  destruct (RestClient.code st) as [c|]; [|reflexivity].
  destruct (JS.truthy_number c); reflexivity.
Qed.


(** C8: [request] resolves, with the parsed body, exactly when the client
    answered with status code 200 and a non-empty body that parses; in
    every other case (a rejection by the client, another status code, no or
    an empty body, a body that does not parse) it rejects with an error
    record of [url], [code] and [message] whose [url] is the requested
    one. *)
Theorem request_resolves_iff_200_with_body
  (Json : Type) (JSON_parse : string -> option Json)
  (url : string) (outcome : RestClient.ClientOutcome) :
  (forall j,
      RestClient.request Json JSON_parse url outcome = RestClient.Resolve j
      <-> exists r st body,
            outcome = RestClient.Fulfilled r
            /\ RestClient.status r = Some st
            /\ RestClient.code st = Some 200
            /\ RestClient.entity r = Some body /\ body <> ""
            /\ JSON_parse body = Some j)
  /\ ((exists j, RestClient.request Json JSON_parse url outcome
                 = RestClient.Resolve j)
      \/ (exists e, RestClient.request Json JSON_parse url outcome
                    = RestClient.Reject e
                    /\ RestClient.err_url e = url
                    /\ exists response, e = RestClient.asRestError url response)).
Proof.
  split.
  - intros j. unfold RestClient.request, RestClient.onResponse. split.
    + destruct outcome as [r|reason]; [|discriminate].
      destruct (RestClient.status r) as [st|] eqn:Es; [|discriminate].
      destruct (RestClient.code st) as [c|] eqn:Ec; [|discriminate].
      destruct (RestClient.entity r) as [body|] eqn:Ee; [|discriminate].
      destruct (Z.eqb_spec c 200) as [->|N]; simpl; [|discriminate].
      unfold JS.truthy_string.
      destruct (String.eqb_spec body "") as [E|N]; simpl; [discriminate|].
      destruct (JSON_parse body) as [j'|] eqn:Ep; [|discriminate].
      intros [= ->]. exists r, st, body. now repeat split.
    + intros (r & st & body & -> & Es & Ec & Ee & N & Ep).
      rewrite Es, Ec, Ee. simpl. unfold JS.truthy_string.
      destruct (String.eqb_spec body "") as [E|_]; [contradiction|].
      simpl. now rewrite Ep.
  - unfold RestClient.request.
    destruct outcome as [r|reason].
    + destruct (RestClient.onResponse Json JSON_parse url r) as [j|e|] eqn:Eh.
      * left. now exists j.
      * right. exists e. split; [reflexivity|].
        unfold RestClient.onResponse in Eh.
        assert (He : e = RestClient.asRestError url (Some r)).
        { destruct (RestClient.status r) as [st|]; [|discriminate].
          destruct (RestClient.code st) as [c|]; [|congruence].
          destruct (RestClient.entity r) as [body|]; [|congruence].
          destruct ((c =? 200) && JS.truthy_string body); [|congruence].
          destruct (JSON_parse body); discriminate. }
        subst e. split; [apply asRestError_url | now eexists].
      * right. eexists. split; [reflexivity|].
        split; [apply asRestError_url | now eexists].
    + right. eexists. split; [reflexivity|].
      split; [apply asRestError_url | now eexists].
Qed.

(** ** Binary64 rounding *)

Section Binary64Facts.

Local Open Scope Q_scope.

Lemma pow2_pos (e : Z) : 0 < Binary64.pow2 e.
Proof. apply Qpower_0_lt. reflexivity. Qed.

Lemma pow2_plus (a b : Z) : Binary64.pow2 (a + b) == Binary64.pow2 a * Binary64.pow2 b.
Proof. apply Qpower_plus. discriminate. Qed.

Lemma pow2_nonneg (a : Z) : (0 <= a)%Z -> Binary64.pow2 a == inject_Z (2 ^ a).
Proof. intros Ha. symmetry. exact (Zpower_Qpower 2 a Ha). Qed.

Lemma pow2_lt_inv (a b : Z) : Binary64.pow2 a < Binary64.pow2 b -> (a < b)%Z.
Proof. intros H. apply (Qpower_lt_compat_l_inv 2 a b H). reflexivity. Qed.

Lemma pow2_le (a b : Z) : (a <= b)%Z -> Binary64.pow2 a <= Binary64.pow2 b.
Proof. intros H. apply (Qpower_le_compat_l 2 a b H). discriminate. Qed.

Lemma rne_le (t : Q) (k : Z) : t <= inject_Z k -> (Binary64.rne t <= k)%Z.
Proof.
  intros Ht. unfold Binary64.rne.
  pose proof (Qfloor_le t) as Hf.
  assert (Hfk : (Qfloor t <= k)%Z).
  { rewrite Zle_Qle. lra. }
  assert (Hstep : 0 < t - inject_Z (Qfloor t) -> (Qfloor t + 1 <= k)%Z).
  { intros Hpos. destruct (Z.eq_dec (Qfloor t) k) as [E|N]; [|lia].
    rewrite E in Hpos. lra. }
  destruct (Qcompare_spec (t - inject_Z (Qfloor t)) (1 # 2)) as [E|L|G].
  - destruct (Z.even (Qfloor t)); [exact Hfk|]. apply Hstep. lra.
  - exact Hfk.
  - apply Hstep. lra.
Qed.

Lemma rne_ge (t : Q) (k : Z) : inject_Z k <= t -> (k <= Binary64.rne t)%Z.
Proof.
  intros Ht. unfold Binary64.rne.
  assert (Hkf : (k <= Qfloor t)%Z).
  { rewrite <- (Qfloor_Z k). now apply Qfloor_resp_le. }
  destruct (t - inject_Z (Qfloor t) ?= 1 # 2);
    [destruct (Z.even (Qfloor t))| |]; lia.
Qed.

Lemma ilog2_spec (x : Q) :
  0 < x -> Binary64.pow2 (Binary64.ilog2 x) <= x /\ x < Binary64.pow2 (Binary64.ilog2 x + 1).
Proof.
  intros Hx. destruct x as [n d].
  assert (Hn : (0 < n)%Z).
  { unfold Qlt in Hx. simpl in Hx. lia. }
  unfold Binary64.ilog2. simpl Qnum. simpl Qden.
  set (a := Z.log2 n). set (b := Z.log2 (Z.pos d)).
  destruct (Z.log2_spec n Hn) as (Ha1 & Ha2). fold a in Ha1, Ha2.
  destruct (Z.log2_spec (Z.pos d) (Pos2Z.is_pos d)) as (Hb1 & Hb2).
  fold b in Hb1, Hb2.
  assert (Ha0 : (0 <= a)%Z) by apply Z.log2_nonneg.
  assert (Hb0 : (0 <= b)%Z) by apply Z.log2_nonneg.
  assert (HA : Binary64.pow2 a == inject_Z (2 ^ a)) by now apply pow2_nonneg.
  assert (HB : Binary64.pow2 b == inject_Z (2 ^ b)) by now apply pow2_nonneg.
  assert (Hk : Binary64.pow2 (a - b) * Binary64.pow2 b == Binary64.pow2 a).
  { rewrite <- pow2_plus. now replace (a - b + b)%Z with a by lia. }
  assert (Hk1 : Binary64.pow2 (a - b + 1) == 2 * Binary64.pow2 (a - b)).
  { rewrite pow2_plus. change (Binary64.pow2 1) with 2. ring. }
  assert (Hk2 : 2 * Binary64.pow2 (a - b - 1) == Binary64.pow2 (a - b)).
  { replace (a - b)%Z with (a - b - 1 + 1)%Z at 2 by lia.
    rewrite pow2_plus. change (Binary64.pow2 1) with 2. ring. }
  assert (Hxd : (n # d) * inject_Z (Z.pos d) == inject_Z n).
  { unfold Qeq, Qmult, inject_Z. simpl. lia. }
  assert (HN1 : inject_Z (2 ^ a) <= inject_Z n) by (rewrite <- Zle_Qle; lia).
  assert (HN2 : inject_Z n < 2 * inject_Z (2 ^ a)).
  { change 2 with (inject_Z 2). rewrite <- inject_Z_mult, <- Zlt_Qlt.
    rewrite Z.pow_succ_r in Ha2 by lia. lia. }
  assert (HD1 : inject_Z (2 ^ b) <= inject_Z (Z.pos d)) by (rewrite <- Zle_Qle; lia).
  assert (HD2 : inject_Z (Z.pos d) < 2 * inject_Z (2 ^ b)).
  { change 2 with (inject_Z 2). rewrite <- inject_Z_mult, <- Zlt_Qlt.
    rewrite Z.pow_succ_r in Hb2 by lia. lia. }
  pose proof (pow2_pos (a - b)) as Pk.
  pose proof (pow2_pos (a - b - 1)) as Pk'.
  pose proof (pow2_pos b) as Pb.
  pose proof (pow2_pos a) as Pa.
  set (X := n # d) in *. set (D := inject_Z (Z.pos d)) in *.
  set (N := inject_Z n) in *.
  rewrite <- HA in HN1, HN2. rewrite <- HB in HD1, HD2.
  set (K := Binary64.pow2 (a - b)) in *. set (B := Binary64.pow2 b) in *. set (A := Binary64.pow2 a) in *.
  destruct (Qle_bool K X) eqn:Eb.
  - apply Qle_bool_iff in Eb. split; [exact Eb|].
    rewrite Hk1. fold K.
    apply Qnot_le_lt. intros Hc.
    assert (2 * K * D <= X * D) by nra.
    assert (K * B <= K * D) by nra.
    nra.
  - assert (Hlt : X < K).
    { apply Qnot_le_lt. intros Hc. apply Qle_bool_iff in Hc. congruence. }
    split.
    + set (K' := Binary64.pow2 (a - b - 1)) in *.
      apply Qnot_lt_le. intros Hc.
      assert (X * D < K' * D) by nra.
      assert (K' * D < K' * (2 * B)) by nra.
      nra.
    + now replace (a - b - 1 + 1)%Z with (a - b)%Z by lia.
Qed.


Lemma pow2_inv (e : Z) : Binary64.pow2 e * Binary64.pow2 (- e) == 1.
Proof.
  rewrite <- pow2_plus. now replace (e + - e)%Z with 0%Z by lia.
Qed.

Lemma round_pos (x : Q) : 0 < x -> Binary64.round x = Binary64.roundPos x.
Proof.
  intros Hx. unfold Binary64.round.
  now rewrite (proj1 (Qgt_alt x 0) Hx).
Qed.

Lemma round_zero (x : Q) : x == 0 -> Binary64.round x = 0.
Proof.
  intros Hx. unfold Binary64.round. now rewrite (proj1 (Qeq_alt x 0) Hx).
Qed.

(** Rounding keeps a number between two multiples of its last place. *)
Lemma roundPos_between (x : Q) (lo hi : Z) :
  inject_Z lo * Binary64.pow2 (Binary64.expo x) <= x ->
  x <= inject_Z hi * Binary64.pow2 (Binary64.expo x) ->
  inject_Z lo * Binary64.pow2 (Binary64.expo x) <= Binary64.roundPos x
  /\ Binary64.roundPos x <= inject_Z hi * Binary64.pow2 (Binary64.expo x).
Proof.
  intros Hlo Hhi. unfold Binary64.roundPos.
  pose proof (pow2_pos (Binary64.expo x)) as Pe.
  pose proof (pow2_pos (- Binary64.expo x)) as Pe'.
  pose proof (pow2_inv (Binary64.expo x)) as Hinv.
  set (E := Binary64.pow2 (Binary64.expo x)) in *. set (E' := Binary64.pow2 (- Binary64.expo x)) in *.
  assert (H1 : inject_Z lo <= x * E').
  { assert (inject_Z lo * E * E' <= x * E')
      by (apply Qmult_le_compat_r; [exact Hlo | lra]).
    assert (inject_Z lo * E * E' == inject_Z lo)
      by (rewrite <- Qmult_assoc, Hinv; ring).
    lra. }
  assert (H2 : x * E' <= inject_Z hi).
  { assert (x * E' <= inject_Z hi * E * E')
      by (apply Qmult_le_compat_r; [exact Hhi | lra]).
    assert (inject_Z hi * E * E' == inject_Z hi)
      by (rewrite <- Qmult_assoc, Hinv; ring).
    lra. }
  apply rne_ge in H1. apply rne_le in H2.
  rewrite Zle_Qle in H1, H2.
  split; nra.
Qed.

Lemma round_5000_5500 (y : Q) :
  5000 <= y -> y <= 5500 -> 5000 <= Binary64.round y /\ Binary64.round y <= 5500.
Proof.
  intros Hlo Hhi.
  assert (Hy : 0 < y) by lra.
  rewrite (round_pos y Hy).
  destruct (ilog2_spec y Hy) as (L1 & L2).
  assert (Hil : Binary64.ilog2 y = 12%Z).
  { assert (Binary64.pow2 (Binary64.ilog2 y) < Binary64.pow2 13).
    { change (Binary64.pow2 13) with 8192. lra. }
    assert (Binary64.pow2 12 < Binary64.pow2 (Binary64.ilog2 y + 1)).
    { change (Binary64.pow2 12) with 4096. lra. }
    pose proof (pow2_lt_inv _ _ H). pose proof (pow2_lt_inv _ _ H0). lia. }
  assert (He : Binary64.expo y = (-40)%Z).
  { unfold Binary64.expo. rewrite Hil. reflexivity. }
  pose proof (roundPos_between y (5000 * 2 ^ 40) (5500 * 2 ^ 40)) as Hb.
  rewrite He in Hb.
  assert (E1 : inject_Z (5000 * 2 ^ 40) * Binary64.pow2 (-40) == 5000) by reflexivity.
  assert (E2 : inject_Z (5500 * 2 ^ 40) * Binary64.pow2 (-40) == 5500) by reflexivity.
  rewrite E1, E2 in Hb. exact (Hb Hlo Hhi).
Qed.

Lemma round_0_500 (x : Q) :
  0 <= x -> x <= 500 -> 0 <= Binary64.round x /\ Binary64.round x <= 500.
Proof.
  intros Hlo Hhi.
  destruct (Qlt_le_dec 0 x) as [Hx | H0].
  2: { rewrite (round_zero x); [split; lra | lra]. }
  rewrite (round_pos x Hx).
  destruct (ilog2_spec x Hx) as (L1 & L2).
  assert (Hil : (Binary64.ilog2 x <= 8)%Z).
  { assert (Binary64.pow2 (Binary64.ilog2 x) < Binary64.pow2 9).
    { change (Binary64.pow2 9) with 512. lra. }
    pose proof (pow2_lt_inv _ _ H). lia. }
  destruct (Z.eq_dec (Binary64.ilog2 x) 8) as [E8 | N8].
  - assert (He : Binary64.expo x = (-44)%Z).
    { unfold Binary64.expo. rewrite E8. reflexivity. }
    pose proof (roundPos_between x 0 (500 * 2 ^ 44)) as Hb.
    rewrite He in Hb.
    assert (E1 : inject_Z 0 * Binary64.pow2 (-44) == 0) by reflexivity.
    assert (E2 : inject_Z (500 * 2 ^ 44) * Binary64.pow2 (-44) == 500) by reflexivity.
    rewrite E1, E2 in Hb. exact (Hb Hlo Hhi).
  - assert (He1 : (Binary64.expo x <= -45)%Z) by (unfold Binary64.expo, Binary64.emin; lia).
    assert (He2 : (Binary64.ilog2 x - 52 <= Binary64.expo x)%Z) by (unfold Binary64.expo; lia).
    pose proof (roundPos_between x 0 (2 ^ 53)) as Hb.
    assert (E1 : inject_Z 0 * Binary64.pow2 (Binary64.expo x) == 0) by (change (inject_Z 0) with 0; ring).
    assert (E2 : inject_Z (2 ^ 53) * Binary64.pow2 (Binary64.expo x) == Binary64.pow2 (53 + Binary64.expo x)).
    { rewrite pow2_plus. reflexivity. }
    rewrite E1, E2 in Hb.
    assert (Hup : x <= Binary64.pow2 (53 + Binary64.expo x)).
    { apply Qlt_le_weak. apply (Qlt_le_trans _ _ _ L2).
      apply pow2_le. lia. }
    destruct (Hb Hlo Hup) as (B1 & B2). split; [exact B1|].
    apply (Qle_trans _ _ _ B2).
    apply (Qle_trans _ (Binary64.pow2 8)); [apply pow2_le; lia|].
    change (Binary64.pow2 8) with 256. lra.
Qed.

(** The delay [5000 + r * 500] in binary64, for a number [r] from 0 up to
    but not including 1, is at least 5000 and at most 5500. *)
Lemma delay_bounds (r : Q) :
  0 <= r -> r < 1 ->
  5000 <= Binary64.add 5000 (Binary64.mul r 500) /\ Binary64.add 5000 (Binary64.mul r 500) <= 5500.
Proof.
  intros H0 H1. unfold Binary64.add, Binary64.mul.
  destruct (round_0_500 (r * 500)) as (A & B); [lra | lra |].
  apply round_5000_5500; lra.
Qed.

End Binary64Facts.

(** ** The polling cycle *)

Section Polling.

Context {helpers : JenkinsHelpers}.

(** [setState] touches nothing but the state. *)
Lemma setState_frame (w : World) (u : State) :
  phase (setState w u) = phase w
  /\ timers (setState w u) = timers w
  /\ inflight (setState w u) = inflight w
  /\ nextHandle (setState w u) = nextHandle w
  /\ props (component (setState w u)) = props (component w)
  /\ _refreshInterval (component (setState w u)) = _refreshInterval (component w)
  /\ _triggerHandle (component (setState w u)) = _triggerHandle (component w).
Proof.
  unfold setState.
  destruct (phase w) eqn:E; simpl; repeat split; solve [reflexivity | exact E].
Qed.

(** When the promise of [loadJob] settles, either way, a timeout with the
    captured delay is set and its handle is kept. *)
Lemma loadJobResolved_schedules (w : World) (d : Q) (st : State) :
  timers (loadJobResolved w d st) = (timers w ++ [(nextHandle w, d)])%list
  /\ _triggerHandle (component (loadJobResolved w d st)) = Some (nextHandle w)
  /\ inflight (loadJobResolved w d st) = inflight w
  /\ phase (loadJobResolved w d st) = phase w
  /\ _refreshInterval (component (loadJobResolved w d st))
     = _refreshInterval (component w).
Proof.
  unfold loadJobResolved, setTimeout. simpl.
  destruct (setState_frame w st) as (Hp & Ht & Hi & Hn & _ & Hr & _).
  rewrite Ht, Hn, Hi, Hp. repeat split; try reflexivity. exact Hr.
Qed.

Lemma loadJobRejected_schedules (w : World) (d : Q) :
  timers (loadJobRejected w d) = (timers w ++ [(nextHandle w, d)])%list
  /\ _triggerHandle (component (loadJobRejected w d)) = Some (nextHandle w)
  /\ inflight (loadJobRejected w d) = inflight w
  /\ phase (loadJobRejected w d) = phase w
  /\ _refreshInterval (component (loadJobRejected w d))
     = _refreshInterval (component w)
  /\ state (component (loadJobRejected w d)) = state (component w).
Proof. repeat split; reflexivity. Qed.

Lemma triggerLoadJob_sends (r : Q) (w : World) :
  inflight (triggerLoadJob r w)
  = (inflight w ++ [AwaitRead (interval (component w) r)])%list
  /\ timers (triggerLoadJob r w) = timers w
  /\ phase (triggerLoadJob r w) = phase w
  /\ _triggerHandle (component (triggerLoadJob r w))
     = _triggerHandle (component w)
  /\ _refreshInterval (component (triggerLoadJob r w))
     = _refreshInterval (component w).
Proof.
  unfold triggerLoadJob, send. simpl.
  match goal with
  | |- context [setState w ?u] =>
      destruct (setState_frame w u) as (Hp & Ht & Hi & Hn & _ & Hr & Hh)
  end.
  rewrite Hi, Ht, Hp, Hh, Hr. repeat split; reflexivity.
Qed.

(** What a completing event leaves behind, in terms of the world in
    which the answer arrives, the request taken off the pending ones. *)
Lemma onRead_shape (w : World) (d : Q) (answer : Answer JenkinsJobResponse) :
  (phase (onRead w d answer) = phase w
   /\ _refreshInterval (component (onRead w d answer))
      = _refreshInterval (component w))
  /\ ((exists name job,
         answer = Resolved job /\ isSingleJob job = true
         /\ inflight (onRead w d answer)
            = (inflight w ++ [AwaitBuild d name job])%list
         /\ timers (onRead w d answer) = timers w
         /\ component (onRead w d answer) = component w)
      \/ (completes (EvRead 0 answer) = true
          /\ inflight (onRead w d answer) = inflight w
          /\ timers (onRead w d answer)
             = (timers w ++ [(nextHandle w, d)])%list
          /\ _triggerHandle (component (onRead w d answer))
             = Some (nextHandle w))).
Proof.
  unfold onRead, completes. destruct answer as [job|].
  - destruct (isSingleJob job) eqn:Es.
    + split; [split; reflexivity|]. left. eexists _, job.
      repeat split; solve [reflexivity | exact Es].
    + destruct (isMultiJob job).
      * destruct (loadJobResolved_schedules w d
                    (multiJobState (component w) job))
          as (Ht & Hh & Hi & Hp & Hr).
        split; [now split|]. right. now repeat split.
      * split; [split; reflexivity|]. right. now repeat split.
  - destruct (loadJobResolved_schedules w d (errorState (component w)))
      as (Ht & Hh & Hi & Hp & Hr).
    split; [now split|]. right. now repeat split.
Qed.

Lemma onBuild_shape (w : World) (d : Q) (name : option string)
  (job : JenkinsJobResponse) (answer : Answer JenkinsBuildResponse) :
  phase (onBuild w d name job answer) = phase w
  /\ _refreshInterval (component (onBuild w d name job answer))
     = _refreshInterval (component w)
  /\ inflight (onBuild w d name job answer) = inflight w
  /\ timers (onBuild w d name job answer)
     = (timers w ++ [(nextHandle w, d)])%list
  /\ _triggerHandle (component (onBuild w d name job answer))
     = Some (nextHandle w).
Proof.
  unfold onBuild. destruct answer as [build|].
  - destruct (loadJobResolved_schedules w d (jobState name job build))
      as (Ht & Hh & Hi & Hp & Hr). now repeat split.
  - now repeat split.
Qed.

Lemma nth_error_singleton {A : Type} (x y : A) (i : nat) :
  nth_error [x] i = Some y -> i = 0%nat /\ x = y.
Proof.
  destruct i as [|i]; simpl.
  - intros [= ->]. now split.
  - destruct i; discriminate.
Qed.

Lemma pending_timer_singleton (h h0 : nat) (d : Q) :
  pending_timer h [(h0, d)] = true -> h0 = h.
Proof.
  unfold pending_timer. simpl. rewrite orb_false_r. apply Nat.eqb_eq.
Qed.

Lemma remove_timer_singleton (h : nat) (d : Q) : remove_timer h [(h, d)] = [].
Proof.
  unfold remove_timer. simpl. now rewrite Nat.eqb_refl.
Qed.

(** Every turn of the event loop keeps the invariant of the cycle. *)
Lemma step_cycle_invariant (w w' : World) (e : Event) :
  cycle_invariant w -> step w e = Some w' -> cycle_invariant w'.
Proof.
  intros Inv Hstep. unfold cycle_invariant in *.
  destruct e as [r|h r|i answer|i answer|]; unfold step in Hstep.
  - (* mount *)
    destruct (phase w) eqn:Ep; try discriminate.
    apply Some_inj in Hstep. subst w'.
    destruct Inv as [(_ & Hi & Ht)|[(N & _)|[(N & _)|(N & _)]]];
      try congruence.
    destruct (triggerLoadJob_sends r (with_phase w Mounted))
      as (Hi' & Ht' & Hp' & _).
    right; left. rewrite Hp', Hi', Ht'. simpl. rewrite Hi, Ht.
    split; [discriminate|]. eexists. split; reflexivity.
  - (* a timeout fires *)
    destruct (pending_timer h (timers w)) eqn:Epend; try discriminate.
    apply Some_inj in Hstep. subst w'.
    destruct Inv as [(_ & _ & Ht)|[(_ & f & _ & Ht)|[Inv|(_ & _ & Ht)]]];
      try (rewrite Ht in Epend; discriminate).
    destruct Inv as (Np & Hi & h0 & d & Ht & Hh).
    rewrite Ht in Epend. apply pending_timer_singleton in Epend. subst h0.
    destruct (triggerLoadJob_sends r (clearTimeout w (Some h)))
      as (Hi' & Ht' & Hp' & _).
    right; left. rewrite Hp', Hi', Ht'. simpl.
    rewrite Hi, Ht, remove_timer_singleton.
    split; [exact Np|]. eexists. split; reflexivity.
  - (* the job request settles *)
    destruct (nth_error (inflight w) i) as [[d|d nm job]|] eqn:En;
      try discriminate.
    apply Some_inj in Hstep. subst w'.
    destruct Inv as [(_ & Hi & _)|[Inv|[(_ & Hi & _)|(_ & Hi & _)]]];
      try (rewrite Hi in En; destruct i; discriminate).
    destruct Inv as (Np & f & Hi & Ht).
    rewrite Hi in En. apply nth_error_singleton in En.
    destruct En as (-> & ->).
    destruct (onRead_shape (settle w 0) d answer)
      as ((Hp' & _) & [(nm & job & _ & _ & Hi' & Ht' & _)
                      |(_ & Hi' & Ht' & Hh')]).
    + right; left. rewrite Hp', Hi', Ht'. simpl. rewrite Hi, Ht. simpl.
      split; [exact Np|]. eexists. split; reflexivity.
    + right; right; left. rewrite Hp', Hi', Ht', Hh'. simpl.
      rewrite Hi, Ht. simpl.
      split; [exact Np|]. split; [reflexivity|].
      eexists _, _. split; reflexivity.
  - (* the build request settles *)
    destruct (nth_error (inflight w) i) as [[d|d nm job]|] eqn:En;
      try discriminate.
    apply Some_inj in Hstep. subst w'.
    destruct Inv as [(_ & Hi & _)|[Inv|[(_ & Hi & _)|(_ & Hi & _)]]];
      try (rewrite Hi in En; destruct i; discriminate).
    destruct Inv as (Np & f & Hi & Ht).
    rewrite Hi in En. apply nth_error_singleton in En.
    destruct En as (-> & ->).
    destruct (onBuild_shape (settle w 0) d nm job answer)
      as (Hp' & _ & Hi' & Ht' & Hh').
    right; right; left. rewrite Hp', Hi', Ht', Hh'. simpl.
    rewrite Hi, Ht. simpl.
    split; [exact Np|]. split; [reflexivity|].
    eexists _, _. split; reflexivity.
  - (* unmounting *)
    destruct (phase w) eqn:Ep; try discriminate.
    apply Some_inj in Hstep. subst w'.
    unfold componentWillUnmount, clearTimeout.
    destruct Inv as [(N & _)|[(_ & f & Hi & Ht)
                             |[(_ & Hi & h & d & Ht & Hh)|(N & _)]]];
      try congruence.
    + right; left. split; [discriminate|]. exists f.
      destruct (_triggerHandle (component w)); simpl; rewrite ?Ht; now split.
    + right; right; right. rewrite Hh. simpl.
      rewrite Ht, remove_timer_singleton. now repeat split.
Qed.

Lemma run_cycle_invariant (es : list Event) (w w' : World) :
  cycle_invariant w -> run w es = Some w' -> cycle_invariant w'.
Proof.
  revert w. induction es as [|e es IH]; intros w Inv Hrun; simpl in Hrun.
  - apply Some_inj in Hrun. now subst.
  - destruct (step w e) as [w1|] eqn:Hstep; [|discriminate].
    apply (IH w1); [|exact Hrun].
    exact (step_cycle_invariant w w1 e Inv Hstep).
Qed.

Lemma reachable_cycle_invariant (c : Component) (w : World) :
  reachable c w -> cycle_invariant w.
Proof.
  intros (es & Hrun). apply (run_cycle_invariant es (initial c) w); [|exact Hrun].
  left. now repeat split.
Qed.

(** *** The delay of the next refresh *)

Lemma jittered_bounds (last : option Q) (d : Q) :
  jittered last d -> (5000 <= d)%Q /\ (d <= 5500)%Q.
Proof.
  intros (r & _ & (H0 & H1) & ->). now apply delay_bounds.
Qed.

Lemma In_remove_nth {A : Type} (x : A) (i : nat) (l : list A) :
  In x (remove_nth i l) -> In x l.
Proof.
  revert i. induction l as [|y l IH]; intros i; simpl.
  - destruct i; exact (fun F => F).
  - destruct i as [|i]; simpl.
    + now right.
    + intros [E|Hin]; [now left | right; exact (IH i Hin)].
Qed.

Lemma Forall_remove_nth {A : Type} (P : A -> Prop) (i : nat) (l : list A) :
  Forall P l -> Forall P (remove_nth i l).
Proof.
  rewrite !Forall_forall. intros HP x Hin.
  apply HP. exact (In_remove_nth x i l Hin).
Qed.

Lemma Forall_remove_timer (P : nat * Q -> Prop) (h : nat) (ts : list (nat * Q)) :
  Forall P ts -> Forall P (remove_timer h ts).
Proof.
  rewrite !Forall_forall. intros HP x Hin.
  apply HP. unfold remove_timer in Hin. now apply filter_In in Hin.
Qed.

Lemma Forall_snoc {A : Type} (P : A -> Prop) (l : list A) (x : A) :
  Forall P l -> P x -> Forall P (l ++ [x]).
Proof.
  intros Hl Hx. apply Forall_app. split; [exact Hl|].
  constructor; [exact Hx | constructor].
Qed.

Lemma interval_jittered (c : Component) (r : Q) :
  _refreshInterval c = 5000 -> unit_interval r ->
  jittered (Some r) (interval c r).
Proof.
  intros Hc Hr. exists r. split; [reflexivity|]. split; [exact Hr|].
  unfold interval. now rewrite Hc.
Qed.

(** Every turn of the event loop keeps the delays those of the number
    drawn last, when the numbers drawn are numbers [Math.random] can
    return. *)
Lemma step_delays_invariant (last : option Q) (w w' : World) (e : Event) :
  cycle_invariant w -> draw_ok e -> delays_invariant last w ->
  step w e = Some w' -> delays_invariant (drawOf last e) w'.
Proof.
  intros Inv Hdraw (Hc & Ht & Hi) Hstep. unfold delays_invariant.
  destruct e as [r|h r|i answer|i answer|]; unfold step in Hstep.
  - destruct (phase w) eqn:Ep; try discriminate.
    apply Some_inj in Hstep. subst w'.
    destruct Inv as [(_ & Hi0 & Ht0)|[(N & _)|[(N & _)|(N & _)]]];
      try congruence.
    destruct (triggerLoadJob_sends r (with_phase w Mounted))
      as (Hi' & Ht' & _ & _ & Hc').
    rewrite Hc', Hi', Ht'. simpl. rewrite Hi0, Ht0.
    split; [exact Hc|]. split; [constructor|].
    constructor; [|constructor]. now apply interval_jittered.
  - destruct (pending_timer h (timers w)) eqn:Epend; try discriminate.
    apply Some_inj in Hstep. subst w'.
    destruct Inv as [(_ & _ & Ht0)|[(_ & f & _ & Ht0)|[Inv|(_ & _ & Ht0)]]];
      try (rewrite Ht0 in Epend; discriminate).
    destruct Inv as (_ & Hi0 & h0 & d & Ht0 & _).
    rewrite Ht0 in Epend. apply pending_timer_singleton in Epend. subst h0.
    destruct (triggerLoadJob_sends r (clearTimeout w (Some h)))
      as (Hi' & Ht' & _ & _ & Hc').
    rewrite Hc', Hi', Ht'. simpl. rewrite Hi0, Ht0, remove_timer_singleton.
    split; [exact Hc|]. split; [constructor|].
    constructor; [|constructor]. now apply interval_jittered.
  - destruct (nth_error (inflight w) i) as [[d|d nm job]|] eqn:En;
      try discriminate.
    apply Some_inj in Hstep. subst w'.
    assert (Hd : jittered last d).
    { apply nth_error_In in En.
      exact (proj1 (Forall_forall _ _) Hi _ En). }
    destruct (onRead_shape (settle w i) d answer)
      as ((_ & Hc') & [(nm & job & _ & _ & Hi' & Ht' & _)
                      |(_ & Hi' & Ht' & _)]);
      rewrite Hc', Hi', Ht'; simpl; (split; [exact Hc|]).
    + split; [exact Ht|].
      apply Forall_snoc; [now apply Forall_remove_nth | exact Hd].
    + split; [now apply Forall_snoc | now apply Forall_remove_nth].
  - destruct (nth_error (inflight w) i) as [[d|d nm job]|] eqn:En;
      try discriminate.
    apply Some_inj in Hstep. subst w'.
    assert (Hd : jittered last d).
    { apply nth_error_In in En.
      exact (proj1 (Forall_forall _ _) Hi _ En). }
    destruct (onBuild_shape (settle w i) d nm job answer)
      as (_ & Hc' & Hi' & Ht' & _).
    rewrite Hc', Hi', Ht'. simpl. split; [exact Hc|].
    split; [now apply Forall_snoc | now apply Forall_remove_nth].
  - destruct (phase w); try discriminate.
    apply Some_inj in Hstep. subst w'. simpl.
    unfold componentWillUnmount, clearTimeout.
    destruct (_triggerHandle (component w)); simpl.
    + split; [exact Hc|]. split; [now apply Forall_remove_timer | exact Hi].
    + now repeat split.
Qed.

Lemma run_delays_invariant (es : list Event) (last : option Q) (w w' : World) :
  cycle_invariant w -> Forall draw_ok es -> delays_invariant last w ->
  run w es = Some w' ->
  delays_invariant (fold_left drawOf es last) w'.
Proof.
  revert last w. induction es as [|e es IH]; intros last w Cinv Hdraw Inv Hrun;
    simpl in Hrun |- *.
  - apply Some_inj in Hrun. now subst.
  - destruct (step w e) as [w1|] eqn:Hstep; [|discriminate].
    inversion Hdraw as [|? ? He Hes]; subst.
    apply (IH (drawOf last e) w1); [|exact Hes| |exact Hrun].
    + exact (step_cycle_invariant w w1 e Cinv Hstep).
    + exact (step_delays_invariant last w w1 e Cinv He Inv Hstep).
Qed.

Lemma constructor_refreshInterval (p : JobProperties) (c : Component) :
  constructor p = inr c ->
  _refreshInterval c = 5000 /\ props c = p /\ state c = None.
Proof.
  unfold constructor.
  destruct (negb (JS.truthy JS.truthy_string (prop_server p))
            || negb (JS.truthy JS.truthy_string (prop_id p)));
    [discriminate|].
  intros [= <-]. now repeat split.
Qed.

(** C7: in every polling cycle of a constructed component, the event
    with which the fetch completes, whether it succeeded or failed, sets
    the timeout of the next refresh, and its delay is the base interval of
    5000 ms plus 500 times the number drawn when the cycle started, as
    binary64 computes it: at least 5000 and at most 5500, hence between 4500
    and 5500. *)
Theorem next_refresh_within_jitter
  (p : JobProperties) (c : Component) (es : list Event) (e : Event)
  (w w' : World) :
  constructor p = inr c ->
  Forall draw_ok es ->
  run (initial c) es = Some w ->
  completes e = true ->
  step w e = Some w' ->
  exists h r d,
    lastDraw es = Some r
    /\ unit_interval r
    /\ d = Binary64.add 5000%Q (Binary64.mul r 500%Q)
    /\ timers w' = [(h, d)]
    /\ _triggerHandle (component w') = Some h
    /\ ((5000 <= d)%Q /\ (d <= 5500)%Q)
    /\ ((4500 <= d)%Q /\ (d <= 5500)%Q).
Proof.
  intros Hc Hdraw Hrun Hcompl Hstep.
  assert (Inv : cycle_invariant w).
  { apply (reachable_cycle_invariant c). now exists es. }
  assert (Dinv : delays_invariant (lastDraw es) w).
  { apply (run_delays_invariant es None (initial c) w); try assumption.
    - left. now repeat split.
    - destruct (constructor_refreshInterval p c Hc) as (Hr & _).
      split; [exact Hr|]. split; constructor. }
  destruct Dinv as (_ & _ & Hi).
  assert (Hfinish : forall i f d,
             nth_error (inflight w) i = Some f -> captured f = d ->
             timers (settle w i) = [] /\ jittered (lastDraw es) d).
  { intros i f d En Ecap.
    assert (Hd : jittered (lastDraw es) (captured f)).
    { apply nth_error_In in En.
      exact (proj1 (Forall_forall _ _) Hi _ En). }
    rewrite Ecap in Hd.
    destruct Inv as [(_ & Hi0 & _)|[Inv|[(_ & Hi0 & _)|(_ & Hi0 & _)]]];
      try (rewrite Hi0 in En; destruct i; discriminate).
    destruct Inv as (_ & f0 & Hi0 & Ht0). simpl. now split. }
  assert (Hgoal : forall d h, jittered (lastDraw es) d ->
             timers w' = [(h, d)] -> _triggerHandle (component w') = Some h ->
             exists h r d,
               lastDraw es = Some r
               /\ unit_interval r
               /\ d = Binary64.add 5000%Q (Binary64.mul r 500%Q)
               /\ timers w' = [(h, d)]
               /\ _triggerHandle (component w') = Some h
               /\ ((5000 <= d)%Q /\ (d <= 5500)%Q)
               /\ ((4500 <= d)%Q /\ (d <= 5500)%Q)).
  { intros d h Hd Ht Hh.
    destruct (jittered_bounds _ d Hd) as (Hlo & Hhi).
    destruct Hd as (r & Hl & Hr & Ed).
    exists h, r, d. repeat split; try assumption; try apply Hr; lra. }
  destruct e as [r|h r|i answer|i answer|]; try discriminate;
    unfold step in Hstep.
  - destruct (nth_error (inflight w) i) as [[d|d nm job]|] eqn:En;
      try discriminate.
    apply Some_inj in Hstep. subst w'.
    destruct (Hfinish i (AwaitRead d) d En eq_refl) as (Ht0 & Hd).
    destruct (onRead_shape (settle w i) d answer)
      as (_ & [(nm & job & -> & Hs & _)|(_ & _ & Ht' & Hh')]).
    + simpl in Hcompl. rewrite Hs in Hcompl. discriminate.
    + rewrite Ht0 in Ht'. exact (Hgoal d _ Hd Ht' Hh').
  - destruct (nth_error (inflight w) i) as [[d|d nm job]|] eqn:En;
      try discriminate.
    apply Some_inj in Hstep. subst w'.
    destruct (Hfinish i (AwaitBuild d nm job) d En eq_refl) as (Ht0 & Hd).
    destruct (onBuild_shape (settle w i) d nm job answer)
      as (_ & _ & _ & Ht' & Hh').
    rewrite Ht0 in Ht'. exact (Hgoal d _ Hd Ht' Hh').
Qed.

(** *** The variants of the state *)

(** Unmounting leaves the state as it is. *)
Lemma unmount_keeps_state (w w' : World) :
  step w EvUnmount = Some w' -> state (component w') = state (component w).
Proof.
  unfold step. destruct (phase w); try discriminate.
  intros Hstep. apply Some_inj in Hstep. subst w'.
  unfold componentWillUnmount, clearTimeout.
  destruct (_triggerHandle (component w)); reflexivity.
Qed.

(** *** A multi-job and its children *)

Lemma childProperties_nth (p : JobProperties)
  (cs : list JenkinsJobRefResponse) (i : nat) (item : JenkinsJobRefResponse) :
  nth_error cs i = Some item ->
  nth_error (map (childProperties p) cs) i = Some (childProperties p item).
Proof.
  intros Hn. now apply map_nth_error.
Qed.

(** What a multi-job answer gives on a widget without a stale build
    status: when the job request is answered with a multi-job of the child
    references [cs], the state gets these references as its [jobs], and
    [renderMultiJob] makes of them as many children, the i-th with the
    server of the parent and the id of the parent followed by [/job/] and
    the name of the i-th reference; each child can be constructed; and
    [render] shows these children unless the state has a build status
    from an earlier cycle. *)
Theorem multi_job_renders_one_child_per_reference
  (w : World) (d : Q) (job : JenkinsJobResponse)
  (cs : list JenkinsJobRefResponse) (pc : Component) (pid : string) :
  constructor (props (component w)) = inr pc ->
  prop_id (props (component w)) = Some pid ->
  phase w <> Unmounted ->
  isSingleJob job = false ->
  isMultiJob job = true ->
  job_jobs job = Some cs ->
  exists st kids,
    state (component (onRead w d (Resolved job))) = Some st
    /\ props (component (onRead w d (Resolved job))) = props (component w)
    /\ jobs st = Some cs
    /\ renderMultiJob (props (component w)) cs = MultiDiv kids
    /\ List.length kids = List.length cs
    /\ (forall i item,
          nth_error cs i = Some item ->
          exists kid,
            nth_error kids i = Some kid
            /\ prop_id kid = Some (pid ++ "/job/" ++ ref_name item)
            /\ prop_server kid = prop_server (props (component w))
            /\ exists kc, constructor kid = inr kc)
    /\ (forall now,
          hasBuildStatus st = false ->
          render now (props (component w)) st = MultiDiv kids).
Proof.
  intros Hpc Hid Hph Hs Hm Hj.
  unfold onRead. rewrite Hs, Hm.
  unfold loadJobResolved, setTimeout, setState.
  destruct (phase w) eqn:Ep; try congruence; simpl;
    (eexists; exists (map (childProperties (props (component w))) cs);
     split; [reflexivity|]; split; [reflexivity|];
     split; [simpl; rewrite Hj; reflexivity|];
     split; [reflexivity|];
     split; [apply length_map|]; split).
  all: try (intros i item Hn; exists (childProperties (props (component w)) item);
            split; [now apply childProperties_nth|];
            split; [simpl; rewrite Hid; reflexivity|];
            split; [reflexivity|];
            unfold constructor in Hpc |- *; simpl;
            destruct (JS.truthy JS.truthy_string
                        (prop_server (props (component w))));
            [|simpl in Hpc; discriminate];
            rewrite Hid; simpl; unfold JS.truthy_string;
            destruct pid; simpl; eexists; reflexivity).
  all: intros now Hb; unfold render; rewrite Hb; simpl; rewrite Hj;
    reflexivity.
Qed.

(** *** Failing fetches *)

(** A rejected job request gives the error state and the next timeout. *)
Lemma read_rejected_sets_error_state (w : World) (d : Q) :
  phase w <> Unmounted ->
  exists st,
    state (component (onRead w d Rejected)) = Some st
    /\ loadStatus st = Some LOADING_ERROR
    /\ buildStatus st = Some Styles.STATUS_NONE
    /\ timers (onRead w d Rejected) = (timers w ++ [(nextHandle w, d)])%list.
Proof.
  intros Hph. unfold onRead, loadJobResolved, setTimeout, setState.
  destruct (phase w) eqn:Ep; try congruence; simpl;
    eexists; repeat split; reflexivity.
Qed.

(** An answer of unsupported shape and a rejected build request leave
    the state as it is; they only set the next timeout. *)
Lemma unsupported_shape_keeps_state (w : World) (d : Q)
  (job : JenkinsJobResponse) :
  isSingleJob job = false -> isMultiJob job = false ->
  state (component (onRead w d (Resolved job))) = state (component w)
  /\ timers (onRead w d (Resolved job))
     = (timers w ++ [(nextHandle w, d)])%list.
Proof.
  intros Hs Hm. unfold onRead. rewrite Hs, Hm. now split.
Qed.

Lemma build_rejected_keeps_state (w : World) (d : Q) (nm : option string)
  (job : JenkinsJobResponse) :
  state (component (onBuild w d nm job Rejected)) = state (component w)
  /\ timers (onBuild w d nm job Rejected)
     = (timers w ++ [(nextHandle w, d)])%list.
Proof. now split. Qed.

(** While the component is mounted the cycle goes on: a request is
    pending or a timeout is, and the event loop can take the turn that
    answers the one or fires the other. *)
Lemma polling_never_halts (c : Component) (w : World) :
  reachable c w -> phase w = Mounted ->
  (exists f, inflight w = [f]
             /\ exists e w', polling e = true /\ step w e = Some w')
  \/ (exists h d, timers w = [(h, d)]
                  /\ forall r, exists w', step w (EvTimeout h r) = Some w').
Proof.
  intros Hreach Hph.
  destruct (reachable_cycle_invariant c w Hreach)
    as [(N & _)|[(_ & f & Hi & Ht)|[(_ & Hi & h & d & Ht & Hh)|(N & _)]]];
    try congruence.
  - left. exists f. split; [exact Hi|].
    destruct f as [iv|iv nm job].
    + exists (EvRead 0 Rejected). eexists. split; [reflexivity|].
      unfold step. rewrite Hi. reflexivity.
    + exists (EvBuild 0 Rejected). eexists. split; [reflexivity|].
      unfold step. rewrite Hi. reflexivity.
  - right. exists h, d. split; [exact Ht|].
    intros r. eexists. unfold step. rewrite Ht.
    unfold pending_timer. simpl. rewrite Nat.eqb_refl. reflexivity.
Qed.

(** *** Unmounting *)

(** Unmounting while the timeout is pending clears it, and no event of
    the component happens any more. *)
Lemma unmount_clears_pending_timeout (c : Component) (w : World) :
  reachable c w -> phase w = Mounted -> inflight w = [] ->
  exists w', step w EvUnmount = Some w'
             /\ timers w' = []
             /\ forall e, step w' e = None.
Proof.
  intros Hreach Hph Hi.
  destruct (reachable_cycle_invariant c w Hreach)
    as [(N & _)|[(_ & f & Hi' & _)|[(_ & _ & h & d & Ht & Hh)|(N & _)]]];
    try congruence.
  eexists. split; [unfold step; rewrite Hph; reflexivity|].
  unfold componentWillUnmount. rewrite Hh. simpl.
  rewrite Ht, remove_timer_singleton. split; [reflexivity|].
  intros [r|h' r|i answer|i answer|]; unfold step; simpl; try reflexivity;
    rewrite Hi; destruct i; reflexivity.
Qed.

End Polling.

(** ** The example widget *)

Lemma exampleComponent_constructed : constructor exampleProps = inr exampleComponent.
Proof. reflexivity. Qed.

Lemma next_refresh_within_jitter_witness :
  exists w w',
    @run specHelpers (initial exampleComponent) [EvMount (1 # 2)] = Some w
    /\ @step specHelpers w (EvRead 0 Rejected) = Some w'
    /\ exists h r d,
         lastDraw [EvMount (1 # 2)] = Some r
         /\ unit_interval r
         /\ d = Binary64.add 5000%Q (Binary64.mul r 500%Q)
         /\ timers w' = [(h, d)]
         /\ _triggerHandle (component w') = Some h
         /\ ((5000 <= d)%Q /\ (d <= 5500)%Q)
         /\ ((4500 <= d)%Q /\ (d <= 5500)%Q).
Proof.
  eexists. eexists.
  split; [vm_compute; reflexivity|].
  split; [vm_compute; reflexivity|].
  eapply (@next_refresh_within_jitter specHelpers exampleProps exampleComponent
            [EvMount (1 # 2)] (EvRead 0 Rejected)).
  - reflexivity.
  - constructor; [|constructor]. split; [discriminate | reflexivity].
  - vm_compute; reflexivity.
  - reflexivity.
  - vm_compute; reflexivity.
Defined.

(** The upper bound is reached: for the largest double below 1 the
    product is the double just below 500 and the sum is exactly 5500. *)
Lemma delay_reaches_5500 :
  unit_interval largestDraw
  /\ (interval exampleComponent largestDraw == 5500)%Q.
Proof.
  split; [split|]; vm_compute; solve [reflexivity | discriminate].
Qed.

(** C2 fails when the same id is first answered with a single job and
    then with a folder: the example widget shows the single job, and after
    the folder has answered the merged state is the state of a single job,
    with the truthy [buildStatus] of the earlier answer, and of a multi-job,
    with [jobs], at once; [render] goes on showing the tile of the single
    job. *)
Theorem state_carries_two_variants :
  exists w st,
    @run specHelpers (initial exampleComponent)
      [EvMount (1 # 2);
       EvRead 0 (Resolved exampleSingleJob);
       EvBuild 0 (Resolved exampleBuild);
       EvTimeout 1 (1 # 2);
       EvRead 0 (Resolved exampleMultiJob)] = Some w
    /\ state (component w) = Some st
    /\ hasBuildStatus st = true
    /\ hasJobs st = true
    /\ forall now,
         @render specHelpers now exampleProps st = @renderJob specHelpers now st.
Proof.
  eexists. eexists.
  split; [vm_compute; reflexivity|].
  split; [reflexivity|].
  split; [reflexivity|].
  split; [reflexivity|].
  intros now. reflexivity.
Qed.

(** C5 fails on a folder whose job request was rejected once: the example
    widget is mounted, its first job request is rejected, and the next one
    is answered with the folder of two children.  The state gets the two
    child references as its [jobs], but it still has the build status of
    the error state, so [render] shows a tile and no child. *)
Theorem folder_after_error_renders_no_child :
  exists w st,
    @run specHelpers (initial exampleComponent)
      [EvMount (1 # 2);
       EvRead 0 Rejected;
       EvTimeout 1 (1 # 2);
       EvRead 0 (Resolved exampleMultiJob)] = Some w
    /\ state (component w) = Some st
    /\ jobs st = Some [ {| ref_name := "a" |}; {| ref_name := "b" |} ]
    /\ buildStatus st = Some Styles.STATUS_NONE
    /\ forall now,
         @render specHelpers now exampleProps st = @renderJob specHelpers now st
         /\ forall kids,
              @render specHelpers now exampleProps st <> MultiDiv kids.
Proof.
  eexists. eexists.
  split; [vm_compute; reflexivity|].
  split; [reflexivity|].
  split; [reflexivity|].
  split; [reflexivity|].
  intros now. split; [reflexivity|].
  intros kids. unfold render. simpl. discriminate.
Qed.

Lemma multi_job_renders_one_child_per_reference_witness :
  exists st kids,
    state (component
             (@onRead specHelpers
                (with_phase (initial exampleComponent) Mounted) (5250 # 1)
                (Resolved exampleMultiJob))) = Some st
    /\ props (component
                (@onRead specHelpers
                   (with_phase (initial exampleComponent) Mounted) (5250 # 1)
                   (Resolved exampleMultiJob))) = exampleProps
    /\ jobs st = Some [ {| ref_name := "a" |}; {| ref_name := "b" |} ]
    /\ renderMultiJob exampleProps [ {| ref_name := "a" |}; {| ref_name := "b" |} ]
       = MultiDiv kids
    /\ List.length kids = 2%nat
    /\ (forall i item,
          nth_error [ {| ref_name := "a" |}; {| ref_name := "b" |} ] i = Some item ->
          exists kid,
            nth_error kids i = Some kid
            /\ prop_id kid = Some ("folder" ++ "/job/" ++ ref_name item)
            /\ prop_server kid = Some "ci"
            /\ exists kc, constructor kid = inr kc)
    /\ (forall now,
          hasBuildStatus st = false ->
          @render specHelpers now exampleProps st = MultiDiv kids).
Proof.
  apply (@multi_job_renders_one_child_per_reference specHelpers
           (with_phase (initial exampleComponent) Mounted) (5250 # 1)
           exampleMultiJob [ {| ref_name := "a" |}; {| ref_name := "b" |} ]
           exampleComponent "folder");
    solve [reflexivity | discriminate].
Defined.

(** C1 fails on an answer of unsupported shape: the example widget is
    mounted and its job request is answered with a response that is neither
    a single job nor a multi-job.  The next timeout is set, but the state
    keeps the load status [loading] and gets no build status. *)
Theorem unsupported_shape_shows_no_error :
  exists w st h d,
    @run specHelpers (initial exampleComponent)
      [EvMount (1 # 2); EvRead 0 (Resolved exampleUnsupportedJob)] = Some w
    /\ state (component w) = Some st
    /\ loadStatus st = Some LOADING
    /\ loadStatus st <> Some LOADING_ERROR
    /\ buildStatus st = None
    /\ timers w = [(h, d)].
Proof.
  do 4 eexists.
  split; [vm_compute; reflexivity|].
  split; [reflexivity|].
  split; [reflexivity|].
  split; [discriminate|].
  split; reflexivity.
Qed.

(** C3 fails when the component is unmounted while its request is pending:
    the example widget is mounted and unmounted at once; when the request is
    then answered the timeout is set all the same, it fires, and the next
    request is sent. *)
Theorem refresh_fires_after_unmount :
  exists w1 w2 d,
    @run specHelpers (initial exampleComponent)
      [EvMount (1 # 2); EvUnmount; EvRead 0 (Resolved exampleMultiJob)] = Some w1
    /\ phase w1 = Unmounted
    /\ timers w1 = [(1%nat, d)]
    /\ @step specHelpers w1 (EvTimeout 1 (1 # 2)) = Some w2
    /\ phase w2 = Unmounted
    /\ inflight w2 = [AwaitRead d].
Proof.
  do 3 eexists.
  split; [vm_compute; reflexivity|].
  split; [reflexivity|].
  split; [reflexivity|].
  split; [vm_compute; reflexivity|].
  split; reflexivity.
Qed.

(** ** The REST client on three answers *)

Example request_resolves_with_parsed_body :
  RestClient.request _ parseLiteral "http://ci/job/nightly/api/json"
    (RestClient.Fulfilled
       {| RestClient.entity := Some "true";
          RestClient.status :=
            Some {| RestClient.code := Some 200; RestClient.text := Some "OK" |};
          RestClient.error := RestClient.JUndefined |})
  = RestClient.Resolve (RestClient.JBool true).
Proof. reflexivity. Qed.

Example request_rejects_malformed_body :
  RestClient.request _ parseLiteral "http://ci/job/nightly/api/json"
    (RestClient.Fulfilled
       {| RestClient.entity := Some "{";
          RestClient.status :=
            Some {| RestClient.code := Some 200; RestClient.text := Some "OK" |};
          RestClient.error := RestClient.JUndefined |})
  = RestClient.Reject (RestClient.unknownError "http://ci/job/nightly/api/json").
Proof. reflexivity. Qed.

Example request_rejects_not_found :
  RestClient.request _ parseLiteral "http://ci/job/nightly/api/json"
    (RestClient.Fulfilled
       {| RestClient.entity := Some "<html></html>";
          RestClient.status :=
            Some {| RestClient.code := Some 404;
                    RestClient.text := Some "Not Found" |};
          RestClient.error := RestClient.JUndefined |})
  = RestClient.Reject
      {| RestClient.err_url := "http://ci/job/nightly/api/json";
         RestClient.err_code := RestClient.JString "404";
         RestClient.err_message :=
           Some "Not FoundNot found or not authenticated or not authorized." |}.
Proof. reflexivity. Qed.

(** * Further properties *)

(** ** The buckets of the age *)

(** The bucket of a job that is not building is 0 up to three hours after
    the build (and for a build in the future), [k] from three hours before
    to three hours after [k] times six hours, and 5 from 27 hours on. *)
Theorem age_bucket_table (job : State) (ts now k : Z) :
  JS.truthy (fun b => b) (building job) = false ->
  buildTimestamp job = Some ts ->
  ts <> 0 ->
  0 <= k <= 5 ->
  (jobAge now job = Some k
   <-> (k = 0 \/ (2 * k - 1) * threeHours <= now - ts)
       /\ (k = 5 \/ now - ts < (2 * k + 1) * threeHours)).
Proof.
  intros Hb Hts Hnz Hk.
  rewrite (jobAge_eq now ts job Hb Hts Hnz), clampAge_spec.
  pose proof (Z.mul_div_le (2 * (now - ts) + ageIntervalMillis)
                (2 * ageIntervalMillis)) as Hlo.
  pose proof (Z.mul_succ_div_gt (2 * (now - ts) + ageIntervalMillis)
                (2 * ageIntervalMillis)) as Hhi.
  set (q := (2 * (now - ts) + ageIntervalMillis) / (2 * ageIntervalMillis)) in *.
  unfold ageIntervalMillis, threeHours in *.
  assert (Hpos : 0 < 2 * (6 * 60 * 60 * 1000)) by lia.
  specialize (Hlo Hpos). specialize (Hhi Hpos).
  split.
  - intros E. apply Some_inj in E. lia.
  - intros H. f_equal. lia.
Qed.

Lemma age_bucket_table_witness :
  jobAge 43202000 exampleTile = Some 2
  <-> (2 = 0 \/ (2 * 2 - 1) * threeHours <= 43202000 - 2000)
      /\ (2 = 5 \/ 43202000 - 2000 < (2 * 2 + 1) * threeHours).
Proof.
  apply (age_bucket_table exampleTile 2000 43202000 2);
    solve [reflexivity | discriminate | lia].
Defined.

(** A tile whose build time stamp is missing or 0 never carries an age
    class, however much time has passed. *)
Theorem no_age_class_without_timestamp (now : Z) (job : State) :
  ageClasses (JS.str (loadStatus job)) = [] ->
  ageClasses (JS.str (buildStatus job)) = [] ->
  buildTimestamp job = None \/ buildTimestamp job = Some 0 ->
  jobAge now job = None /\ ageClasses (jobClassName now job) = [].
Proof.
  intros Hl Hs Hts.
  assert (Hage : jobAge now job = None).
  { unfold jobAge. destruct Hts as [-> | ->]; [reflexivity|].
    simpl. now rewrite andb_false_r. }
  split; [exact Hage|].
  now rewrite (ageClasses_jobClassName now job Hl Hs), Hage.
Qed.

Lemma no_age_class_without_timestamp_witness :
  jobAge 43202000 (errorState exampleComponent) = None
  /\ ageClasses (jobClassName 43202000 (errorState exampleComponent)) = [].
Proof.
  apply (no_age_class_without_timestamp 43202000 (errorState exampleComponent));
    solve [reflexivity | left; reflexivity].
Defined.

(** ** The classes of a tile *)

Lemma classList_loadStatus (l : string) :
  In l [LOADING; LOADING_DONE; LOADING_ERROR] ->
  classList l = [l] /\ l <> "building".
Proof.
  intros [<-|[<-|[<-|[]]]]; (split; [reflexivity | discriminate]).
Qed.

Lemma classList_style (b : string) :
  In b Styles.all -> classList b = [b] /\ b <> "building".
Proof.
  intros [<-|[<-|[<-|[<-|[]]]]]; (split; [reflexivity | discriminate]).
Qed.

(** For a load status and a build status the component writes, the classes
    of a tile are [status], the load status and the build status, then
    [building] if the job is building, then the age class of a bucket from 1
    to 5; and the tile has a progress bar exactly when it has the class
    [building]. *)
Theorem tile_classes `{JenkinsHelpers} (now : Z) (st : State) (l b : string) :
  loadStatus st = Some l -> In l [LOADING; LOADING_DONE; LOADING_ERROR] ->
  buildStatus st = Some b -> In b Styles.all ->
  classList (jobClassName now st)
  = (["status"; l; b]
     ++ (if JS.truthy (fun x => x) (building st) then ["building"] else [])
     ++ ageClassOf (jobAge now st))%list
  /\ exists title href heading progressBar,
       renderJob now st
       = JobDiv (jobClassName now st) title href heading progressBar
       /\ (progressBar <> None
           <-> In "building" (classList (jobClassName now st))).
Proof.
  intros Hl Il Hb Ib.
  destruct (classList_loadStatus l Il) as (Cl & Nl).
  destruct (classList_style b Ib) as (Cb & Nb).
  assert (Hbase : classList ("status " ++ l ++ " " ++ b) = ["status"; l; b]).
  { change ("status " ++ l ++ " " ++ b)
      with ("status" ++ String " " (l ++ String " " b)).
    now rewrite !classList_space, Cl, Cb. }
  assert (Hclasses :
    classList (jobClassName now st)
    = (["status"; l; b]
       ++ (if JS.truthy (fun x => x) (building st) then ["building"] else [])
       ++ ageClassOf (jobAge now st))%list
    /\ ~ In "building" (ageClassOf (jobAge now st))).
  { unfold jobClassName. rewrite Hl, Hb. simpl JS.str.
    assert (Hbld :
      classList (if JS.truthy (fun x => x) (building st)
                 then ("status " ++ l ++ " " ++ b) ++ " building"
                 else "status " ++ l ++ " " ++ b)
      = (["status"; l; b]
         ++ (if JS.truthy (fun x => x) (building st) then ["building"] else []))%list).
    { destruct (JS.truthy (fun x => x) (building st)).
      - change " building" with (String " " "building").
        now rewrite classList_space, Hbase.
      - now rewrite Hbase. }
    destruct (jobAge now st) as [age|] eqn:Eage.
    - apply jobAge_some in Eage. destruct Eage as (_ & _ & Hrange).
      unfold JS.truthy_number.
      destruct (Z.eqb_spec age 0) as [->|Hnz]; simpl negb; cbv iota.
      + rewrite Hbld. simpl ageClassOf. rewrite app_nil_r.
        split; [reflexivity | exact (fun F => F)].
      + change (" age-" ++ JS.num_to_string age)
          with (String " " ("age-" ++ JS.num_to_string age)).
        rewrite classList_space, Hbld, <- app_assoc.
        assert (Hc : age = 1 \/ age = 2 \/ age = 3 \/ age = 4 \/ age = 5) by lia.
        destruct Hc as [->|[->|[->|[->| ->]]]];
          (split; [reflexivity | intros [F|[]]; discriminate]).
    - rewrite Hbld. simpl ageClassOf. rewrite app_nil_r.
      split; [reflexivity | exact (fun F => F)]. }
  destruct Hclasses as (Hclasses & Hnoage).
  split; [exact Hclasses|].
  unfold renderJob. do 4 eexists. split; [reflexivity|].
  rewrite Hclasses.
  destruct (JS.truthy (fun x => x) (building st)); simpl.
  - split; [intros _; do 3 right; left; reflexivity | discriminate].
  - split; [congruence|].
    intros [F|[F|[F|F]]]; exfalso.
    + discriminate F.
    + exact (Nl F).
    + exact (Nb F).
    + exact (Hnoage F).
Qed.

Lemma tile_classes_witness :
  classList (jobClassName 43202000 exampleTile) = ["status"; "loading-done"; "success"; "age-2"].
Proof.
  apply (proj1 (@tile_classes specHelpers 43202000 exampleTile
                  LOADING_DONE Styles.STATUS_SUCCESS
                  eq_refl ltac:(right; left; reflexivity)
                  eq_refl ltac:(left; reflexivity))).
Defined.

(** ** The ids of children *)

Lemma append_cancel_l (a x y : string) : a ++ x = a ++ y -> x = y.
Proof.
  induction a as [|c a IH]; simpl; [exact (fun E => E)|].
  intros [= E]. exact (IH E).
Qed.

Lemma childProperties_id_inj (p : JobProperties)
  (a b : JenkinsJobRefResponse) :
  prop_id (childProperties p a) = prop_id (childProperties p b) ->
  ref_name a = ref_name b.
Proof.
  simpl. intros E. apply Some_inj in E.
  apply append_cancel_l in E. now apply (append_cancel_l "/job/") in E.
Qed.

(** Child references of different names get different ids: the children
    of a multi-job have pairwise different ids when the names of the
    references are pairwise different. *)
Theorem child_ids_distinct (p : JobProperties)
  (cs : list JenkinsJobRefResponse) (kids : list JobProperties) :
  NoDup (map ref_name cs) ->
  renderMultiJob p cs = MultiDiv kids ->
  NoDup (map prop_id kids).
Proof.
  intros Hnd [= <-]. induction cs as [|c cs IH]; simpl.
  - constructor.
  - inversion Hnd as [|? ? Hnotin Hnd']; subst. constructor.
    + intros Hin. apply Hnotin.
      rewrite map_map in Hin. apply in_map_iff in Hin.
      destruct Hin as (c' & E & Hc').
      apply in_map_iff. exists c'. split; [|exact Hc'].
      exact (childProperties_id_inj p c' c E).
    + exact (IH Hnd').
Qed.

Lemma child_ids_distinct_witness :
  NoDup (map prop_id
           [childProperties exampleProps {| ref_name := "a" |};
            childProperties exampleProps {| ref_name := "b" |}]).
Proof.
  apply (child_ids_distinct exampleProps
           [ {| ref_name := "a" |}; {| ref_name := "b" |} ]).
  - repeat (constructor; [simpl; intuition discriminate|]). constructor.
  - reflexivity.
Defined.

Lemma descendantProperties_server (path : list string) (p : JobProperties) :
  prop_server (descendantProperties p path) = prop_server p.
Proof.
  unfold descendantProperties. revert p.
  induction path as [|n path IH]; intros p; simpl; [reflexivity|].
  now rewrite IH.
Qed.

Lemma append_empty_r (a : string) : a ++ "" = a.
Proof.
  induction a as [|c a IH]; simpl; [reflexivity | now rewrite IH].
Qed.

Lemma descendantProperties_id (path : list string) (p : JobProperties)
  (pid : string) :
  prop_id p = Some pid ->
  prop_id (descendantProperties p path) = Some (pid ++ pathSuffix path).
Proof.
  unfold descendantProperties. revert p pid.
  induction path as [|n path IH]; intros p pid Hid; simpl.
  - rewrite Hid. now rewrite append_empty_r.
  - rewrite (IH _ (pid ++ "/job/" ++ n)).
    + f_equal. now rewrite !append_assoc.
    + simpl. now rewrite Hid.
Qed.

Lemma append_nonempty_l (a b : string) : a <> "" -> a ++ b <> "".
Proof.
  destruct a; simpl; [congruence | discriminate].
Qed.

Lemma descendantProperties_name (path : list string) (p : JobProperties) :
  path <> [] -> prop_name (descendantProperties p path) = None.
Proof.
  unfold descendantProperties.
  destruct path as [|n path]; [contradiction|]. intros _. simpl.
  assert (Hkeep : forall q, prop_name q = None ->
                    prop_name (fold_left
                                 (fun q n => childProperties q {| ref_name := n |})
                                 path q) = None).
  { induction path as [|m path IH]; intros q Hq; simpl; [exact Hq|].
    apply IH. reflexivity. }
  apply Hkeep. reflexivity.
Qed.

(** Nesting composes the ids: the widget reached from a constructed widget
    along a path of child names has the server of that widget and its id
    followed by [/job/] and the name for each step of the path; unless the
    path is empty it has no name of its own; and it can be constructed in
    turn. *)
Theorem descendant_id_composes (p : JobProperties) (c : Component)
  (pid : string) (path : list string) :
  constructor p = inr c ->
  prop_id p = Some pid ->
  prop_server (descendantProperties p path) = prop_server p
  /\ prop_id (descendantProperties p path) = Some (pid ++ pathSuffix path)
  /\ (path <> [] -> prop_name (descendantProperties p path) = None)
  /\ exists c', constructor (descendantProperties p path) = inr c'.
Proof.
  intros Hc Hid.
  split; [apply descendantProperties_server|].
  split; [now apply descendantProperties_id|].
  split; [apply descendantProperties_name|].
  unfold constructor in Hc |- *.
  rewrite descendantProperties_server, (descendantProperties_id path p pid Hid).
  rewrite Hid in Hc.
  destruct (JS.truthy JS.truthy_string (prop_server p)); [|discriminate].
  simpl in Hc |- *. unfold JS.truthy_string in Hc |- *.
  destruct (String.eqb_spec pid "") as [E|N]; [discriminate|].
  destruct (String.eqb_spec (pid ++ pathSuffix path) "") as [E|_].
  - exfalso. exact (append_nonempty_l pid _ N E).
  - simpl. eexists. reflexivity.
Qed.

Lemma descendant_id_composes_witness :
  prop_server
    (descendantProperties
       {| prop_server := Some "ci"; prop_id := Some "folder";
          prop_name := Some "Nightly" |} ["a"; "b"]) = Some "ci"
  /\ prop_id
       (descendantProperties
          {| prop_server := Some "ci"; prop_id := Some "folder";
             prop_name := Some "Nightly" |} ["a"; "b"])
     = Some ("folder" ++ pathSuffix ["a"; "b"])
  /\ (["a"; "b"] <> [] ->
      prop_name
        (descendantProperties
           {| prop_server := Some "ci"; prop_id := Some "folder";
              prop_name := Some "Nightly" |} ["a"; "b"]) = None)
  /\ exists c',
       constructor
         (descendantProperties
            {| prop_server := Some "ci"; prop_id := Some "folder";
               prop_name := Some "Nightly" |} ["a"; "b"]) = inr c'.
Proof.
  apply (descendant_id_composes
           {| prop_server := Some "ci"; prop_id := Some "folder";
              prop_name := Some "Nightly" |}
           {| props := {| prop_server := Some "ci"; prop_id := Some "folder";
                          prop_name := Some "Nightly" |};
              state := None; _refreshInterval := 5000; _triggerHandle := None |}
           "folder" ["a"; "b"]);
    reflexivity.
Defined.

(** ** The errors of the REST client *)



(** An answer that has a non-zero status code and no truthy [error], and
    that is not a 200 with a body, is rejected with the status code in
    decimal as the code, so with the code [200] for a 200 without a body,
    and with the status text as the message, to which only a 404 adds the
    hint. *)
Theorem request_reports_status_code
  (Json : Type) (JSON_parse : string -> option Json)
  (url : string) (r : RestClient.Response) (st : RestClient.Status) (c : Z) :
  RestClient.status r = Some st ->
  RestClient.code st = Some c ->
  c <> 0 ->
  RestClient.truthy_value (RestClient.error r) = false ->
  c <> 200 \/ RestClient.entity r = None \/ RestClient.entity r = Some "" ->
  RestClient.request Json JSON_parse url (RestClient.Fulfilled r)
  = RestClient.Reject
      {| RestClient.err_url := url;
         RestClient.err_code := RestClient.JString (JS.num_to_string c);
         RestClient.err_message :=
           if c =? 404
           then Some (JS.str (RestClient.text st)
                      ++ "Not found or not authenticated or not authorized.")
           else RestClient.text st |}.
Proof.
  intros Hs Hc Hnz He Hcase.
  assert (Herr : RestClient.asRestError url (Some r)
                 = {| RestClient.err_url := url;
                      RestClient.err_code := RestClient.JString (JS.num_to_string c);
                      RestClient.err_message :=
                        if c =? 404
                        then Some (JS.str (RestClient.text st)
                                   ++ "Not found or not authenticated or not authorized.")
                        else RestClient.text st |}).
  { unfold RestClient.asRestError. rewrite He, Hs, Hc.
    unfold JS.truthy_number.
    destruct (Z.eqb_spec c 0) as [E|_]; [contradiction|]. reflexivity. }
  unfold RestClient.request, RestClient.onResponse. rewrite Hs, Hc, Herr.
  destruct (RestClient.entity r) as [body|] eqn:Ee; [|reflexivity].
  destruct (Z.eqb_spec c 200) as [E|N]; simpl; [|reflexivity].
  destruct Hcase as [N|[F|F]]; [contradiction | discriminate |].
  apply Some_inj in F. subst body. reflexivity.
Qed.

Lemma request_reports_status_code_witness :
  RestClient.request _ parseLiteral "http://ci/job/nightly/api/json"
    (RestClient.Fulfilled
       {| RestClient.entity := Some "";
          RestClient.status :=
            Some {| RestClient.code := Some 200; RestClient.text := Some "OK" |};
          RestClient.error := RestClient.JUndefined |})
  = RestClient.Reject
      {| RestClient.err_url := "http://ci/job/nightly/api/json";
         RestClient.err_code := RestClient.JString "200";
         RestClient.err_message := Some "OK" |}.
Proof.
  apply (request_reports_status_code _ parseLiteral
           "http://ci/job/nightly/api/json" _
           {| RestClient.code := Some 200; RestClient.text := Some "OK" |} 200);
    solve [reflexivity | discriminate | right; right; reflexivity].
Defined.

(** A body that does not parse and an answer without a status are both
    rejected with the error of code [unknown] and the general message,
    whatever else the answer holds, as is a rejection of the client with a
    falsy value. *)
Theorem request_unknown_error
  (Json : Type) (JSON_parse : string -> option Json)
  (url : string) (r : RestClient.Response) :
  (RestClient.status r = None
   \/ exists st body,
        RestClient.status r = Some st /\ RestClient.code st = Some 200
        /\ RestClient.entity r = Some body /\ body <> ""
        /\ JSON_parse body = None) ->
  RestClient.request Json JSON_parse url (RestClient.Fulfilled r)
  = RestClient.Reject (RestClient.unknownError url)
  /\ RestClient.request Json JSON_parse url (RestClient.Failed None)
     = RestClient.Reject (RestClient.unknownError url).
Proof.
  intros Hcase. split; [|reflexivity].
  unfold RestClient.request, RestClient.onResponse.
  destruct Hcase as [-> | (st & body & -> & -> & -> & N & ->)];
    [reflexivity|].
  simpl. unfold JS.truthy_string.
  destruct (String.eqb_spec body "") as [E|_]; [contradiction | reflexivity].
Qed.

Lemma request_unknown_error_witness :
  RestClient.request _ parseLiteral "http://ci/job/nightly/api/json"
    (RestClient.Fulfilled
       {| RestClient.entity := Some "{";
          RestClient.status :=
            Some {| RestClient.code := Some 200; RestClient.text := Some "OK" |};
          RestClient.error := RestClient.JString "timeout" |})
  = RestClient.Reject (RestClient.unknownError "http://ci/job/nightly/api/json")
  /\ RestClient.request _ parseLiteral "http://ci/job/nightly/api/json"
       (RestClient.Failed None)
     = RestClient.Reject (RestClient.unknownError "http://ci/job/nightly/api/json").
Proof.
  apply (request_unknown_error _ parseLiteral).
  right. exists {| RestClient.code := Some 200; RestClient.text := Some "OK" |}, "{".
  repeat split; solve [reflexivity | discriminate].
Defined.

(** ** The state of the widget over its life *)

Section Widget.

Context {helpers : JenkinsHelpers}.

Lemma setState_state (w : World) (u : State) :
  (phase w = Unmounted /\ setState w u = w)
  \/ (phase w <> Unmounted
      /\ state (component (setState w u))
         = Some (merge (currentState (component w)) u)).
Proof.
  unfold setState, currentState.
  destruct (phase w) eqn:Ep.
  - right. split; [discriminate | reflexivity].
  - right. split; [discriminate | reflexivity].
  - left. now split.
Qed.

(** How a turn of the event loop changes the component: the properties
    stay, and the state stays or gets an update merged in. *)
Lemma step_component (w w' : World) (e : Event) :
  step w e = Some w' ->
  props (component w') = props (component w)
  /\ (state (component w') = state (component w)
      \/ (phase w <> Unmounted
          /\ exists u, state (component w')
                       = Some (merge (currentState (component w)) u)
                       /\ update_of w e u)).
Proof.
  intros Hstep.
  destruct e as [r|h r|i answer|i answer|]; unfold step in Hstep.
  - destruct (phase w) eqn:Ep; try discriminate.
    apply Some_inj in Hstep. subst w'.
    split; [reflexivity|]. right. split; [discriminate|].
    exists (loadingState (component w)). split; [reflexivity|].
    left. split; [reflexivity|]. left. now exists r.
  - destruct (pending_timer h (timers w)); try discriminate.
    apply Some_inj in Hstep. subst w'.
    unfold triggerLoadJob.
    match goal with
    | |- context [setState ?w0 ?u] =>
        destruct (setState_state w0 u) as [(Hp & ->)|(Hp & Hst)];
        destruct (setState_frame w0 u) as (_ & _ & _ & _ & Hprops & _)
    end.
    + split; [reflexivity|]. now left.
    + split; [exact Hprops|]. right. split; [exact Hp|].
      exists (loadingState (component w)). split; [exact Hst|].
      left. split; [reflexivity|]. right. now exists h, r.
  - destruct (nth_error (inflight w) i) as [[d|d nm job]|] eqn:En;
      try discriminate.
    apply Some_inj in Hstep. subst w'.
    unfold onRead. destruct answer as [job|].
    + destruct (isSingleJob job) eqn:Es; [split; [reflexivity | now left]|].
      destruct (isMultiJob job) eqn:Em; [|split; [reflexivity | now left]].
      unfold loadJobResolved.
      match goal with
      | |- context [setState ?w0 ?u] =>
          destruct (setState_state w0 u) as [(Hp & ->)|(Hp & Hst)];
          destruct (setState_frame w0 u) as (_ & _ & _ & _ & Hprops & _)
      end.
      * split; [reflexivity | now left].
      * split; [exact Hprops|]. right. split; [exact Hp|].
        exists (multiJobState (component w) job). split; [exact Hst|].
        right; right; left. exists i, job. now repeat split.
    + unfold loadJobResolved.
      match goal with
      | |- context [setState ?w0 ?u] =>
          destruct (setState_state w0 u) as [(Hp & ->)|(Hp & Hst)];
          destruct (setState_frame w0 u) as (_ & _ & _ & _ & Hprops & _)
      end.
      * split; [reflexivity | now left].
      * split; [exact Hprops|]. right. split; [exact Hp|].
        exists (errorState (component w)). split; [exact Hst|].
        right; left. split; [reflexivity | now exists i].
  - destruct (nth_error (inflight w) i) as [[d|d nm job]|] eqn:En;
      try discriminate.
    apply Some_inj in Hstep. subst w'.
    unfold onBuild. destruct answer as [build|];
      [|split; [reflexivity | now left]].
    unfold loadJobResolved.
    match goal with
    | |- context [setState ?w0 ?u] =>
        destruct (setState_state w0 u) as [(Hp & ->)|(Hp & Hst)];
        destruct (setState_frame w0 u) as (_ & _ & _ & _ & Hprops & _)
    end.
    + split; [reflexivity | now left].
    + split; [exact Hprops|]. right. split; [exact Hp|].
      exists (jobState nm job build). split; [exact Hst|].
      right; right; right. exists i, d, nm, job, build. now repeat split.
  - destruct (phase w); try discriminate.
    apply Some_inj in Hstep. subst w'.
    unfold componentWillUnmount, clearTimeout.
    destruct (_triggerHandle (component w)); (split; [reflexivity | now left]).
Qed.

Lemma orElse_truthy (a b : option string) :
  JS.truthy JS.truthy_string b = true ->
  JS.truthy JS.truthy_string (orElse a b) = true.
Proof.
  intros Hb. unfold orElse.
  destruct (JS.truthy JS.truthy_string a) eqn:Ea; assumption.
Qed.

Lemma orElse_first (a b : option string) :
  JS.truthy JS.truthy_string a = true -> orElse a b = a.
Proof.
  intros Ha. unfold orElse. now rewrite Ha.
Qed.

Lemma jobName_truthy (p : JobProperties) (job : JenkinsJobResponse) :
  JS.truthy JS.truthy_string (prop_id p) = true ->
  JS.truthy JS.truthy_string (jobName p job) = true.
Proof.
  intros Hid. now apply orElse_truthy.
Qed.

Lemma jobName_explicit (p : JobProperties) (job : JenkinsJobResponse) :
  JS.truthy JS.truthy_string (prop_name p) = true ->
  jobName p job = prop_name p.
Proof.
  intros Hn. unfold jobName.
  rewrite (orElse_first (prop_name p) (job_displayName job) Hn).
  now apply orElse_first.
Qed.

Lemma getDisplayName_truthy (c : Component) :
  JS.truthy JS.truthy_string (prop_id (props c)) = true ->
  JS.truthy JS.truthy_string (getDisplayNameFromPropOrState c) = true.
Proof.
  intros Hid. unfold getDisplayNameFromPropOrState.
  destruct (state c) as [st|].
  - destruct (JS.truthy JS.truthy_string (name st)) eqn:En;
      [exact En | now apply orElse_truthy].
  - now apply orElse_truthy.
Qed.

Lemma getDisplayName_explicit (p : JobProperties) (c : Component) :
  props c = p -> state_ok p c ->
  JS.truthy JS.truthy_string (prop_name p) = true ->
  getDisplayNameFromPropOrState c = prop_name p.
Proof.
  intros Hp Hok Hn. unfold getDisplayNameFromPropOrState. rewrite Hp.
  destruct (state c) as [st|] eqn:Es.
  - destruct (JS.truthy JS.truthy_string (name st)) eqn:En.
    + exact (proj2 (Hok st Es) Hn).
    + now apply orElse_first.
  - now apply orElse_first.
Qed.

(** The name a state keeps when its name is truthy. *)
Lemma getDisplayName_state (c : Component) (st : State) :
  state c = Some st ->
  JS.truthy JS.truthy_string (name st) = true ->
  getDisplayNameFromPropOrState c = name st.
Proof.
  intros Es En. unfold getDisplayNameFromPropOrState. now rewrite Es, En.
Qed.

Lemma assignKey_truthy (old upd : option string) :
  JS.truthy JS.truthy_string upd = true -> assignKey old upd = upd.
Proof.
  destruct upd; [reflexivity | discriminate].
Qed.

Lemma asStatusStyle_in (job : JenkinsJobResponse) :
  In (asStatusStyle job) Styles.all.
Proof.
  unfold asStatusStyle, Styles.all.
  destruct (getBuildStatus job); simpl; tauto.
Qed.

Lemma style_truthy (s : string) :
  In s Styles.all -> JS.truthy_string s = true.
Proof.
  intros [<-|[<-|[<-|[<-|[]]]]]; reflexivity.
Qed.

Lemma currentState_buildStatus (p : JobProperties) (c : Component) :
  state_ok p c ->
  buildStatus (currentState c) = None
  \/ exists s, buildStatus (currentState c) = Some s /\ In s Styles.all.
Proof.
  intros Hok. unfold currentState.
  destruct (state c) as [st|] eqn:Es; [|now left].
  exact (proj1 (proj2 (proj1 (Hok st Es)))).
Qed.

(** Every update leaves a well-formed state that shows the name of the
    properties if they have one. *)
Lemma update_keeps_state_ok (p : JobProperties) (w : World) (e : Event)
  (u : State) :
  JS.truthy JS.truthy_string (prop_id p) = true ->
  props (component w) = p ->
  names_captured p w ->
  state_ok p (component w) ->
  update_of w e u ->
  state_wellformed (merge (currentState (component w)) u)
  /\ (JS.truthy JS.truthy_string (prop_name p) = true ->
      name (merge (currentState (component w)) u) = prop_name p).
Proof.
  intros Hid Hp Hnames Hok Hu.
  assert (Hdn : JS.truthy JS.truthy_string
                  (getDisplayNameFromPropOrState (component w)) = true).
  { apply getDisplayName_truthy. now rewrite Hp. }
  pose proof (currentState_buildStatus p (component w) Hok) as Hbs.
  destruct Hu as [(-> & _)|[(-> & _)|[(i & job & _ & _ & _ & ->)
                                     |(i & d & nm & job & build & _ & En & ->)]]].
  - (* the loading update *)
    split; [split; [|split]|].
    + exists LOADING. split; [reflexivity | now left].
    + exact Hbs.
    + simpl. now rewrite assignKey_truthy.
    + intros Hn. simpl. rewrite assignKey_truthy by exact Hdn.
      exact (getDisplayName_explicit p (component w) Hp Hok Hn).
  - (* the error state *)
    split; [split; [|split]|].
    + exists LOADING_ERROR. split; [reflexivity | simpl; tauto].
    + right. exists Styles.STATUS_NONE. split; [reflexivity | simpl; tauto].
    + simpl. now rewrite assignKey_truthy.
    + intros Hn. simpl. rewrite assignKey_truthy by exact Hdn.
      exact (getDisplayName_explicit p (component w) Hp Hok Hn).
  - (* the multi-job state *)
    split; [split; [|split]|].
    + exists LOADING_DONE. split; [reflexivity | simpl; tauto].
    + exact Hbs.
    + simpl. now rewrite assignKey_truthy.
    + intros Hn. simpl. rewrite assignKey_truthy by exact Hdn.
      exact (getDisplayName_explicit p (component w) Hp Hok Hn).
  - (* the state of a single job *)
    assert (Hnm : nm = jobName p job).
    { apply nth_error_In in En.
      exact (proj1 (Forall_forall _ _) Hnames _ En). }
    subst nm.
    pose proof (jobName_truthy p job Hid) as Hjn.
    split; [split; [|split]|].
    + exists LOADING_DONE. split; [reflexivity | simpl; tauto].
    + right. exists (asStatusStyle job). split; [reflexivity|].
      apply asStatusStyle_in.
    + simpl. now rewrite assignKey_truthy.
    + intros Hn. simpl. rewrite assignKey_truthy by exact Hjn.
      now apply jobName_explicit.
Qed.

(** The names captured by pending build requests stay right. *)
Lemma step_names_captured (p : JobProperties) (w w' : World) (e : Event) :
  props (component w) = p ->
  names_captured p w -> step w e = Some w' -> names_captured p w'.
Proof.
  intros Hp Hnames Hstep. unfold names_captured in *.
  destruct e as [r|h r|i answer|i answer|]; unfold step in Hstep.
  - destruct (phase w); try discriminate.
    apply Some_inj in Hstep. subst w'.
    destruct (triggerLoadJob_sends r (with_phase w Mounted)) as (-> & _).
    apply Forall_snoc; [exact Hnames | exact I].
  - destruct (pending_timer h (timers w)); try discriminate.
    apply Some_inj in Hstep. subst w'.
    destruct (triggerLoadJob_sends r (clearTimeout w (Some h))) as (-> & _).
    apply Forall_snoc; [exact Hnames | exact I].
  - destruct (nth_error (inflight w) i) as [[d|d nm job]|] eqn:En;
      try discriminate.
    apply Some_inj in Hstep. subst w'.
    pose proof (Forall_remove_nth _ i _ Hnames) as Hrest.
    unfold onRead. destruct answer as [job|].
    + destruct (isSingleJob job).
      * simpl. apply Forall_snoc; [exact Hrest|].
        unfold jobName. now rewrite Hp.
      * destruct (isMultiJob job).
        -- destruct (loadJobResolved_schedules (settle w i) d
                       (multiJobState (component (settle w i)) job))
             as (_ & _ & -> & _). exact Hrest.
        -- exact Hrest.
    + destruct (loadJobResolved_schedules (settle w i) d
                  (errorState (component (settle w i))))
        as (_ & _ & -> & _). exact Hrest.
  - destruct (nth_error (inflight w) i) as [[d|d nm job]|] eqn:En;
      try discriminate.
    apply Some_inj in Hstep. subst w'.
    destruct (onBuild_shape (settle w i) d nm job answer)
      as (_ & _ & -> & _).
    exact (Forall_remove_nth _ i _ Hnames).
  - destruct (phase w); try discriminate.
    apply Some_inj in Hstep. subst w'.
    unfold componentWillUnmount, clearTimeout.
    destruct (_triggerHandle (component w)); exact Hnames.
Qed.

Lemma step_phase (w w' : World) (e : Event) :
  step w e = Some w' ->
  phase w' = phase w
  \/ (exists r, e = EvMount r) \/ e = EvUnmount.
Proof.
  intros Hstep.
  destruct e as [r|h r|i answer|i answer|]; unfold step in Hstep.
  - right; left. now exists r.
  - destruct (pending_timer h (timers w)); try discriminate.
    apply Some_inj in Hstep. subst w'. left.
    now destruct (triggerLoadJob_sends r (clearTimeout w (Some h)))
      as (_ & _ & -> & _).
  - destruct (nth_error (inflight w) i) as [[d|d nm job]|]; try discriminate.
    apply Some_inj in Hstep. subst w'. left.
    now destruct (onRead_shape (settle w i) d answer) as ((-> & _) & _).
  - destruct (nth_error (inflight w) i) as [[d|d nm job]|]; try discriminate.
    apply Some_inj in Hstep. subst w'. left.
    now destruct (onBuild_shape (settle w i) d nm job answer) as (-> & _).
  - now right; right.
Qed.

Lemma step_widget_invariant (p : JobProperties) (w w' : World) (e : Event) :
  JS.truthy JS.truthy_string (prop_id p) = true ->
  widget_invariant p w -> step w e = Some w' -> widget_invariant p w'.
Proof.
  intros Hid (Hp & Hnames & Hsome & Hok) Hstep.
  destruct (step_component w w' e Hstep) as (Hprops & Hstate).
  assert (Hp' : props (component w') = p) by (now rewrite Hprops).
  split; [exact Hp'|].
  split; [exact (step_names_captured p w w' e Hp Hnames Hstep)|].
  destruct Hstate as [Hsame | (_ & u & Hst & Hu)].
  - split.
    + destruct Hsome as [Hc | Hs]; [|right; now rewrite Hsame].
      destruct (step_phase w w' e Hstep) as [E|[(r & ->)| ->]].
      * left. now rewrite E.
      * unfold step in Hstep. rewrite Hc in Hstep.
        apply Some_inj in Hstep. subst w'. right. discriminate.
      * unfold step in Hstep. rewrite Hc in Hstep. discriminate.
    + intros st Es. rewrite Hsame in Es. exact (Hok st Es).
  - split; [right; rewrite Hst; discriminate|].
    intros st Es. rewrite Hst in Es. apply Some_inj in Es. subst st.
    exact (update_keeps_state_ok p w e u Hid Hp Hnames Hok Hu).
Qed.

Lemma run_widget_invariant (p : JobProperties) (es : list Event)
  (w w' : World) :
  JS.truthy JS.truthy_string (prop_id p) = true ->
  widget_invariant p w -> run w es = Some w' -> widget_invariant p w'.
Proof.
  intros Hid. revert w.
  induction es as [|e es IH]; intros w Inv Hrun; simpl in Hrun.
  - apply Some_inj in Hrun. now subst.
  - destruct (step w e) as [w1|] eqn:Hstep; [|discriminate].
    apply (IH w1); [|exact Hrun].
    exact (step_widget_invariant p w w1 e Hid Inv Hstep).
Qed.

Lemma constructed_widget_invariant (p : JobProperties) (c : Component)
  (es : list Event) (w : World) :
  constructor p = inr c ->
  run (initial c) es = Some w ->
  JS.truthy JS.truthy_string (prop_id p) = true /\ widget_invariant p w.
Proof.
  intros Hc Hrun.
  assert (Hid : JS.truthy JS.truthy_string (prop_id p) = true).
  { unfold constructor in Hc.
    destruct (JS.truthy JS.truthy_string (prop_id p)); [reflexivity|].
    rewrite orb_true_r in Hc. discriminate. }
  split; [exact Hid|].
  destruct (constructor_refreshInterval p c Hc) as (_ & Hp & Hs).
  apply (run_widget_invariant p es (initial c) w Hid); [|exact Hrun].
  split; [exact Hp|]. split; [constructor|]. split; [now left|].
  intros st Es. simpl in Es. rewrite Hs in Es. discriminate.
Qed.

(** From mounting on, the state of a constructed widget is defined; its
    load status is one of [loading], [loading-done] and [loading-error], its
    build status, if it has one, is one of the four styles, and its name is
    not empty. *)
Theorem mounted_state_wellformed (p : JobProperties) (c : Component)
  (es : list Event) (w : World) :
  constructor p = inr c ->
  run (initial c) es = Some w ->
  phase w <> Created ->
  exists st, state (component w) = Some st /\ state_wellformed st.
Proof.
  intros Hc Hrun Hph.
  destruct (constructed_widget_invariant p c es w Hc Hrun)
    as (_ & _ & _ & Hsome & Hok).
  destruct Hsome as [F | Hs]; [contradiction|].
  destruct (state (component w)) as [st|] eqn:Es; [|contradiction].
  exists st. split; [reflexivity|]. exact (proj1 (Hok st Es)).
Qed.

(** A name given in the properties is the name of every state: neither
    the display name of the job nor the id ever replaces it. *)
Theorem explicit_name_is_kept (p : JobProperties) (c : Component)
  (n : string) (es : list Event) (w : World) (st : State) :
  constructor p = inr c ->
  prop_name p = Some n -> n <> "" ->
  run (initial c) es = Some w ->
  state (component w) = Some st ->
  name st = Some n.
Proof.
  intros Hc Hn Hne Hrun Es.
  destruct (constructed_widget_invariant p c es w Hc Hrun)
    as (_ & _ & _ & _ & Hok).
  rewrite <- Hn. apply (proj2 (Hok st Es)).
  apply truthy_string_iff. now exists n.
Qed.

Lemma step_keeps_buildStatus (w w' : World) (e : Event) (st : State) :
  step w e = Some w' ->
  state (component w) = Some st ->
  hasBuildStatus st = true ->
  exists st', state (component w') = Some st' /\ hasBuildStatus st' = true.
Proof.
  intros Hstep Es Hb.
  destruct (step_component w w' e Hstep) as (_ & [Hsame|(_ & u & Hst & Hu)]).
  - exists st. split; [now rewrite Hsame | exact Hb].
  - eexists. split; [exact Hst|].
    unfold currentState. rewrite Es.
    unfold hasBuildStatus in *. simpl.
    destruct Hu as [(-> & _)|[(-> & _)|[(i & job & _ & _ & _ & ->)
                                       |(i & d & nm & job & build & _ & _ & ->)]]];
      simpl; try exact Hb; try reflexivity.
    apply style_truthy, asStatusStyle_in.
Qed.

(** A state that has a build status keeps having one: once the widget has
    shown a tile, be it the tile of an error, it goes on showing a tile,
    never again the placeholder or children. *)
Theorem tile_is_never_replaced (es : list Event) (w w' : World) (st : State) :
  run w es = Some w' ->
  state (component w) = Some st ->
  hasBuildStatus st = true ->
  exists st',
    state (component w') = Some st'
    /\ hasBuildStatus st' = true
    /\ forall now, render now (props (component w')) st' = renderJob now st'.
Proof.
  revert w st. induction es as [|e es IH]; intros w st Hrun Es Hb;
    simpl in Hrun.
  - apply Some_inj in Hrun. subst w'. exists st.
    split; [exact Es|]. split; [exact Hb|].
    intros now. unfold render. now rewrite Hb.
  - destruct (step w e) as [w1|] eqn:Hstep; [|discriminate].
    destruct (step_keeps_buildStatus w w1 e st Hstep Es Hb) as (st1 & Es1 & Hb1).
    exact (IH w1 st1 Hrun Es1 Hb1).
Qed.

Lemma triggerLoadJob_loading (r : Q) (w : World) :
  phase w <> Unmounted ->
  exists st, state (component (triggerLoadJob r w)) = Some st
             /\ loadStatus st = Some LOADING.
Proof.
  intros Hph. unfold triggerLoadJob, send. simpl.
  match goal with
  | |- context [setState w ?u] =>
      destruct (setState_state w u) as [(F & _)|(_ & ->)]
  end; [contradiction|].
  eexists. split; reflexivity.
Qed.

Lemma step_loading_while_pending (w w' : World) (e : Event) :
  cycle_invariant w ->
  (phase w = Mounted -> inflight w <> [] ->
   exists st, state (component w) = Some st /\ loadStatus st = Some LOADING) ->
  step w e = Some w' ->
  phase w' = Mounted -> inflight w' <> [] ->
  exists st, state (component w') = Some st /\ loadStatus st = Some LOADING.
Proof.
  intros Inv IH Hstep Hph Hin.
  assert (Hone : forall i f, nth_error (inflight w) i = Some f ->
                             inflight (settle w i) = [] /\ inflight w <> []).
  { intros i f En.
    destruct Inv as [(_ & Hi & _)|[(_ & f0 & Hi & _)|[(_ & Hi & _)|(_ & Hi & _)]]];
      try (rewrite Hi in En; destruct i; discriminate).
    rewrite Hi in En. apply nth_error_singleton in En. destruct En as (-> & _).
    simpl. rewrite Hi. split; [reflexivity | discriminate]. }
  destruct e as [r|h r|i answer|i answer|]; unfold step in Hstep.
  - destruct (phase w); try discriminate.
    apply Some_inj in Hstep. subst w'.
    apply triggerLoadJob_loading. discriminate.
  - destruct (pending_timer h (timers w)); try discriminate.
    apply Some_inj in Hstep. subst w'.
    apply triggerLoadJob_loading.
    destruct (triggerLoadJob_sends r (clearTimeout w (Some h)))
      as (_ & _ & Hp' & _).
    rewrite Hp' in Hph. simpl in Hph |- *. congruence.
  - destruct (nth_error (inflight w) i) as [[d|d nm job]|] eqn:En;
      try discriminate.
    apply Some_inj in Hstep. subst w'.
    destruct (Hone i _ En) as (Hempty & Hne).
    destruct (onRead_shape (settle w i) d answer)
      as ((Hp' & _) & [(nm & job & _ & _ & _ & _ & Hc)|(_ & Hi' & _)]).
    + rewrite Hc. rewrite Hp' in Hph. exact (IH Hph Hne).
    + rewrite Hi', Hempty in Hin. contradiction.
  - destruct (nth_error (inflight w) i) as [[d|d nm job]|] eqn:En;
      try discriminate.
    apply Some_inj in Hstep. subst w'.
    destruct (Hone i _ En) as (Hempty & _).
    destruct (onBuild_shape (settle w i) d nm job answer)
      as (_ & _ & Hi' & _).
    rewrite Hi', Hempty in Hin. contradiction.
  - destruct (phase w); try discriminate.
    apply Some_inj in Hstep. subst w'. discriminate.
Qed.

(** While a request of a mounted widget is pending, be it the job request
    or the build request, the load status is [loading]. *)
Theorem loading_while_request_pending (c : Component) (w : World) :
  reachable c w ->
  phase w = Mounted -> inflight w <> [] ->
  exists st, state (component w) = Some st /\ loadStatus st = Some LOADING.
Proof.
  intros (es & Hrun). revert w Hrun.
  induction es as [|e es IH] using rev_ind; intros w Hrun.
  - apply Some_inj in Hrun. subst w. discriminate.
  - assert (Hsplit : exists w0, run (initial c) es = Some w0
                                /\ step w0 e = Some w).
    { clear IH. revert Hrun. generalize (initial c).
      induction es as [|e0 es IHes]; intros w1 Hrun; simpl in Hrun |- *.
      - destruct (step w1 e) as [w2|] eqn:Hs; [|discriminate].
        apply Some_inj in Hrun. subst w2. now exists w1.
      - destruct (step w1 e0) as [w2|]; [|discriminate].
        exact (IHes w2 Hrun). }
    destruct Hsplit as (w0 & Hrun0 & Hstep).
    apply (step_loading_while_pending w0 w e); [|exact (IH w0 Hrun0)|exact Hstep].
    apply (reachable_cycle_invariant c). now exists es.
Qed.

(** At most one request or timeout of a widget is pending at any time,
    never a request and a timeout together, and while the widget is mounted
    exactly one. *)
Theorem one_request_or_one_timeout (c : Component) (w : World) :
  reachable c w ->
  (List.length (inflight w) + List.length (timers w) <= 1)%nat
  /\ (phase w = Mounted ->
      (List.length (inflight w) + List.length (timers w) = 1)%nat).
Proof.
  intros Hreach.
  destruct (reachable_cycle_invariant c w Hreach)
    as [(Hp & -> & ->)|[(_ & f & -> & ->)
                      |[(_ & -> & h & d & -> & _)|(Hp & -> & ->)]]];
    simpl; split; try lia; intros Hm; congruence.
Qed.

(** A rejected job request of a mounted widget turns the state into the
    error state: load status [loading-error] and build status [none], the
    name as before; what an earlier answer has left of url, building flag,
    progress, time stamp and jobs stays; and the widget shows this state as
    a tile. *)
Theorem rejected_read_shows_error_tile (p : JobProperties) (c : Component)
  (es : list Event) (w w' : World) (i : nat) :
  constructor p = inr c ->
  run (initial c) es = Some w ->
  phase w = Mounted ->
  step w (EvRead i Rejected) = Some w' ->
  exists old st,
    state (component w) = Some old
    /\ state (component w') = Some st
    /\ loadStatus st = Some LOADING_ERROR
    /\ buildStatus st = Some Styles.STATUS_NONE
    /\ name st = name old
    /\ (url st = url old /\ building st = building old
        /\ buildProgress st = buildProgress old
        /\ buildTimestamp st = buildTimestamp old /\ jobs st = jobs old)
    /\ forall now, render now p st = renderJob now st.
Proof.
  intros Hc Hrun Hph Hstep.
  destruct (constructed_widget_invariant p c es w Hc Hrun)
    as (_ & _ & _ & Hsome & Hok).
  destruct Hsome as [F | Hsome]; [congruence|].
  destruct (state (component w)) as [old|] eqn:Eold; [|contradiction].
  pose proof (proj1 (Hok old Eold)) as Hwf.
  exists old.
  unfold step in Hstep.
  destruct (nth_error (inflight w) i) as [[d|d nm job]|]; try discriminate.
  apply Some_inj in Hstep. subst w'.
  unfold onRead, loadJobResolved.
  match goal with
  | |- context [setState ?w0 ?u] =>
      destruct (setState_state w0 u) as [(F & _)|(_ & Hst)]
  end.
  { simpl in F. congruence. }
  simpl component in Hst |- *. unfold currentState in Hst. rewrite Eold in Hst.
  eexists. split; [reflexivity|]. split; [exact Hst|].
  destruct Hwf as (_ & _ & Hname).
  split; [reflexivity|]. split; [reflexivity|].
  split.
  { simpl. rewrite (getDisplayName_state (component w) old Eold Hname).
    now apply assignKey_truthy. }
  split; [now repeat split|].
  intros now. reflexivity.
Qed.

(** The first thing a constructed widget shows is the loading placeholder
    with the class [status loading], under the name of the properties or,
    without one, under the id. *)
Theorem first_render_is_placeholder (p : JobProperties) (c : Component) (r : Q) :
  constructor p = inr c ->
  exists w st,
    step (initial c) (EvMount r) = Some w
    /\ state (component w) = Some st
    /\ forall now,
         render now p st
         = LoadingDiv "status loading" (orElse (prop_name p) (prop_id p)).
Proof.
  intros Hc. destruct (constructor_refreshInterval p c Hc) as (_ & Hp & Hs).
  do 2 eexists. split; [reflexivity|].
  split; [reflexivity|].
  intros now. unfold render, hasBuildStatus, renderLoading. simpl.
  unfold currentState, getDisplayNameFromPropOrState. simpl.
  rewrite Hs, Hp. simpl.
  now destruct (orElse (prop_name p) (prop_id p)).
Qed.

End Widget.

(** ** The example widget over its life *)

Lemma exampleFetching_reachable :
  @reachable specHelpers exampleComponent exampleFetching.
Proof. exists [EvMount (1 # 2)]. reflexivity. Qed.

Lemma exampleWaiting_reachable :
  @reachable specHelpers exampleComponent exampleWaiting.
Proof.
  exists [EvMount (1 # 2); EvRead 0 (Resolved exampleMultiJob)]. reflexivity.
Qed.

Lemma mounted_state_wellformed_witness :
  exists st, state (component exampleFetching) = Some st /\ state_wellformed st.
Proof.
  apply (@mounted_state_wellformed specHelpers exampleProps exampleComponent
           [EvMount (1 # 2)] exampleFetching);
    solve [reflexivity | discriminate].
Defined.

Lemma explicit_name_is_kept_witness :
  name (merge emptyState
          (loadingState
             {| props := {| prop_server := Some "ci"; prop_id := Some "folder";
                            prop_name := Some "Nightly" |};
                state := None; _refreshInterval := 5000;
                _triggerHandle := None |}))
  = Some "Nightly".
Proof.
  apply (@explicit_name_is_kept specHelpers
           {| prop_server := Some "ci"; prop_id := Some "folder";
              prop_name := Some "Nightly" |}
           {| props := {| prop_server := Some "ci"; prop_id := Some "folder";
                          prop_name := Some "Nightly" |};
              state := None; _refreshInterval := 5000; _triggerHandle := None |}
           "Nightly" [EvMount (1 # 2)]
           (triggerLoadJob (1 # 2)
              (with_phase
                 (initial
                    {| props := {| prop_server := Some "ci";
                                   prop_id := Some "folder";
                                   prop_name := Some "Nightly" |};
                       state := None; _refreshInterval := 5000;
                       _triggerHandle := None |}) Mounted)));
    solve [reflexivity | discriminate].
Defined.

Lemma tile_is_never_replaced_witness :
  exists w',
    @run specHelpers exampleShowingTile
      [EvTimeout 1 (1 # 2); EvRead 0 (Resolved exampleMultiJob)] = Some w'
    /\ exists st',
         state (component w') = Some st'
         /\ hasBuildStatus st' = true
         /\ forall now,
              @render specHelpers now (props (component w')) st'
              = @renderJob specHelpers now st'.
Proof.
  eexists. split; [vm_compute; reflexivity|].
  eapply (@tile_is_never_replaced specHelpers
            [EvTimeout 1 (1 # 2); EvRead 0 (Resolved exampleMultiJob)]
            exampleShowingTile).
  - vm_compute; reflexivity.
  - reflexivity.
  - reflexivity.
Defined.

Lemma loading_while_request_pending_witness :
  exists st, state (component exampleFetching) = Some st
             /\ loadStatus st = Some LOADING.
Proof.
  apply (@loading_while_request_pending specHelpers exampleComponent
           exampleFetching).
  - exists [EvMount (1 # 2)]. reflexivity.
  - reflexivity.
  - vm_compute. discriminate.
Defined.

Lemma one_request_or_one_timeout_witness :
  (List.length (inflight exampleWaiting) + List.length (timers exampleWaiting)
   <= 1)%nat
  /\ (phase exampleWaiting = Mounted ->
      (List.length (inflight exampleWaiting)
       + List.length (timers exampleWaiting) = 1)%nat).
Proof.
  apply (@one_request_or_one_timeout specHelpers exampleComponent exampleWaiting).
  exists [EvMount (1 # 2); EvRead 0 (Resolved exampleMultiJob)]. reflexivity.
Defined.

Lemma rejected_read_shows_error_tile_witness :
  exists w',
    @step specHelpers exampleFetching (EvRead 0 Rejected) = Some w'
    /\ exists old st,
         state (component exampleFetching) = Some old
         /\ state (component w') = Some st
         /\ loadStatus st = Some LOADING_ERROR
         /\ buildStatus st = Some Styles.STATUS_NONE
         /\ name st = name old
         /\ (url st = url old /\ building st = building old
             /\ buildProgress st = buildProgress old
             /\ buildTimestamp st = buildTimestamp old /\ jobs st = jobs old)
         /\ forall now,
              @render specHelpers now exampleProps st
              = @renderJob specHelpers now st.
Proof.
  eexists. split; [vm_compute; reflexivity|].
  eapply (@rejected_read_shows_error_tile specHelpers exampleProps
            exampleComponent [EvMount (1 # 2)] exampleFetching _ 0%nat).
  - reflexivity.
  - reflexivity.
  - reflexivity.
  - vm_compute; reflexivity.
Defined.

Lemma first_render_is_placeholder_witness :
  exists w st,
    @step specHelpers (initial exampleComponent) (EvMount (1 # 2)) = Some w
    /\ state (component w) = Some st
    /\ forall now,
         @render specHelpers now exampleProps st
         = LoadingDiv "status loading"
             (orElse (prop_name exampleProps) (prop_id exampleProps)).
Proof.
  apply (@first_render_is_placeholder specHelpers exampleProps exampleComponent
           (1 # 2)).
  reflexivity.
Defined.

Lemma polling_never_halts_witness :
  (exists f, inflight exampleFetching = [f]
             /\ exists e w', polling e = true
                             /\ @step specHelpers exampleFetching e = Some w')
  \/ (exists h d, timers exampleFetching = [(h, d)]
                  /\ forall r, exists w',
                       @step specHelpers exampleFetching (EvTimeout h r) = Some w').
Proof.
  apply (@polling_never_halts specHelpers exampleComponent exampleFetching).
  - exists [EvMount (1 # 2)]. reflexivity.
  - reflexivity.
Defined.

Lemma unmount_clears_pending_timeout_witness :
  exists w', @step specHelpers exampleWaiting EvUnmount = Some w'
             /\ timers w' = []
             /\ forall e, @step specHelpers w' e = None.
Proof.
  apply (@unmount_clears_pending_timeout specHelpers exampleComponent
           exampleWaiting).
  - exists [EvMount (1 # 2); EvRead 0 (Resolved exampleMultiJob)]. reflexivity.
  - reflexivity.
  - reflexivity.
Defined.

(** ** Answers that succeed *)

Section Answers.

Context {helpers : JenkinsHelpers}.

(** When the build request of a mounted widget is answered, every field of
    the tile comes from this cycle: the name worked out from the properties
    and the job that was answered, the url, build count, style and building
    flag of that job, and the progress and time stamp of the build; nothing
    of an earlier state is left but [jobs]; and the widget shows a tile. *)
Theorem single_job_answer_refreshes_tile (p : JobProperties) (c : Component)
  (es : list Event) (w w' : World) (i : nat) (build : JenkinsBuildResponse) :
  constructor p = inr c ->
  run (initial c) es = Some w ->
  phase w = Mounted ->
  step w (EvBuild i (Resolved build)) = Some w' ->
  exists d job st,
    nth_error (inflight w) i = Some (AwaitBuild d (jobName p job) job)
    /\ state (component w') = Some st
    /\ st = merge (currentState (component w)) (jobState (jobName p job) job build)
    /\ name st = jobName p job
    /\ loadStatus st = Some LOADING_DONE
    /\ url st = Some (job_url job)
    /\ buildStatus st = Some (asStatusStyle job)
    /\ building st = Some (isBuilding job)
    /\ buildProgress st = Some (getProgressPercent build)
    /\ buildTimestamp st = Some (timestamp build)
    /\ jobs st = jobs (currentState (component w))
    /\ forall now, render now p st = renderJob now st.
Proof.
  intros Hc Hrun Hph Hstep.
  destruct (constructed_widget_invariant p c es w Hc Hrun)
    as (Hid & _ & Hnames & _ & _).
  unfold step in Hstep.
  destruct (nth_error (inflight w) i) as [[d|d nm job]|] eqn:En;
    try discriminate.
  apply Some_inj in Hstep. subst w'.
  assert (Hnm : nm = jobName p job).
  { apply nth_error_In in En.
    exact (proj1 (Forall_forall _ _) Hnames _ En). }
  subst nm. exists d, job.
  unfold onBuild, loadJobResolved.
  match goal with
  | |- context [setState ?w0 ?u] =>
      destruct (setState_state w0 u) as [(F & _)|(_ & Hst)]
  end.
  { simpl in F. congruence. }
  simpl component in Hst |- *.
  eexists. split; [reflexivity|]. split; [exact Hst|].
  split; [reflexivity|].
  split.
  { simpl. apply assignKey_truthy. now apply jobName_truthy. }
  repeat (split; [reflexivity|]).
  intros now. unfold render, hasBuildStatus. simpl.
  now rewrite (style_truthy _ (asStatusStyle_in job)).
Qed.

(** A multi-job answer to a mounted widget puts the child references into
    the state and sets the load status [loading-done]; the name stays what
    it was, the display name of the folder is not used, and so do the
    fields of a tile, if an earlier answer has left any. *)
Theorem multi_job_answer_keeps_name (p : JobProperties) (c : Component)
  (es : list Event) (w w' : World) (i : nat) (job : JenkinsJobResponse)
  (cs : list JenkinsJobRefResponse) :
  constructor p = inr c ->
  run (initial c) es = Some w ->
  phase w = Mounted ->
  isSingleJob job = false -> isMultiJob job = true -> job_jobs job = Some cs ->
  step w (EvRead i (Resolved job)) = Some w' ->
  exists old st,
    state (component w) = Some old
    /\ state (component w') = Some st
    /\ jobs st = Some cs
    /\ loadStatus st = Some LOADING_DONE
    /\ name st = name old
    /\ buildStatus st = buildStatus old
    /\ (url st = url old /\ building st = building old
        /\ buildProgress st = buildProgress old
        /\ buildTimestamp st = buildTimestamp old).
Proof.
  intros Hc Hrun Hph Hs Hm Hj Hstep.
  destruct (constructed_widget_invariant p c es w Hc Hrun)
    as (_ & _ & _ & Hsome & Hok).
  destruct Hsome as [F | Hsome]; [congruence|].
  destruct (state (component w)) as [old|] eqn:Eold; [|contradiction].
  pose proof (proj1 (Hok old Eold)) as Hwf.
  exists old.
  unfold step in Hstep.
  destruct (nth_error (inflight w) i) as [[d|d nm job0]|]; try discriminate.
  apply Some_inj in Hstep. subst w'.
  unfold onRead. rewrite Hs, Hm. unfold loadJobResolved.
  match goal with
  | |- context [setState ?w0 ?u] =>
      destruct (setState_state w0 u) as [(F & _)|(_ & Hst)]
  end.
  { simpl in F. congruence. }
  simpl component in Hst |- *. unfold currentState in Hst. rewrite Eold in Hst.
  eexists. split; [reflexivity|]. split; [exact Hst|].
  destruct Hwf as (_ & _ & Hname).
  split; [simpl; now rewrite Hj|].
  split; [reflexivity|].
  split.
  { simpl. rewrite (getDisplayName_state (component w) old Eold Hname).
    now apply assignKey_truthy. }
  now repeat split.
Qed.

End Answers.

Lemma single_job_answer_refreshes_tile_witness :
  exists w1 w',
    @run specHelpers (initial exampleComponent)
      [EvMount (1 # 2); EvRead 0 (Resolved exampleSingleJob)] = Some w1
    /\ @step specHelpers w1 (EvBuild 0 (Resolved exampleBuild)) = Some w'
    /\ exists d job st,
         nth_error (inflight w1) 0
         = Some (AwaitBuild d (jobName exampleProps job) job)
         /\ state (component w') = Some st
         /\ st = merge (currentState (component w1))
                   (@jobState specHelpers (jobName exampleProps job) job exampleBuild)
         /\ name st = jobName exampleProps job
         /\ loadStatus st = Some LOADING_DONE
         /\ url st = Some (job_url job)
         /\ buildStatus st = Some (@asStatusStyle specHelpers job)
         /\ building st = Some (@isBuilding specHelpers job)
         /\ buildProgress st = Some (@getProgressPercent specHelpers exampleBuild)
         /\ buildTimestamp st = Some (timestamp exampleBuild)
         /\ jobs st = jobs (currentState (component w1))
         /\ forall now,
              @render specHelpers now exampleProps st
              = @renderJob specHelpers now st.
Proof.
  eexists. eexists.
  split; [vm_compute; reflexivity|].
  split; [vm_compute; reflexivity|].
  eapply (@single_job_answer_refreshes_tile specHelpers exampleProps
            exampleComponent
            [EvMount (1 # 2); EvRead 0 (Resolved exampleSingleJob)]).
  - reflexivity.
  - vm_compute; reflexivity.
  - reflexivity.
  - vm_compute; reflexivity.
Defined.

Lemma multi_job_answer_keeps_name_witness :
  exists w',
    @step specHelpers exampleFetching (EvRead 0 (Resolved exampleMultiJob))
    = Some w'
    /\ exists old st,
         state (component exampleFetching) = Some old
         /\ state (component w') = Some st
         /\ jobs st = Some [ {| ref_name := "a" |}; {| ref_name := "b" |} ]
         /\ loadStatus st = Some LOADING_DONE
         /\ name st = name old
         /\ buildStatus st = buildStatus old
         /\ (url st = url old /\ building st = building old
             /\ buildProgress st = buildProgress old
             /\ buildTimestamp st = buildTimestamp old).
Proof.
  eexists. split; [vm_compute; reflexivity|].
  eapply (@multi_job_answer_keeps_name specHelpers exampleProps exampleComponent
            [EvMount (1 # 2)] exampleFetching _ 0%nat exampleMultiJob).
  - reflexivity.
  - reflexivity.
  - reflexivity.
  - reflexivity.
  - reflexivity.
  - reflexivity.
  - vm_compute; reflexivity.
Defined.
